(** * FSx for Windows File Server: validators and time-of-day value objects

    A shallow embedding of the TypeScript sources of the [aws-fsx] package

      - [lib/backup-start-time.ts]            (module [BackupStartTime]),
      - [lib/windows-file-system.ts]          (module [WindowsFileSystemTs]),
      - the unnamed revision [part_000] of the same class, with the
        full list of field validators         (module [WindowsFileSystem]),
      - [lib/audit-log-configuration.ts] and
        [lib/self-managed-AD-configuration.ts] (records),
      - the weekly maintenance time, of which the package's sources hold
        the test only                         (module [MaintenanceTime]),

    followed by the properties of the validators, of the value objects and
    of the two ways of building a file system handle. *)

From Stdlib Require Import ZArith QArith Bool List String Ascii Lia.
From Stdlib Require Import DecimalString DecimalPos.
From Stdlib Require Import Qreals Reals Lra.
Import ListNotations.

Set Implicit Arguments.

Local Open Scope Z_scope.
Local Open Scope string_scope.

(* ================================================================== *)
(** * Exceptions *)

(** A JavaScript call either returns or throws [new Error(message)]. *)
Inductive result (A : Type) : Type :=
| Ok (a : A)
| Throw (message : string).

Arguments Ok {A} a.
Arguments Throw {A} message.

Definition bind {A B} (r : result A) (k : A -> result B) : result B :=
  match r with
  | Ok a => k a
  | Throw m => Throw m
  end.

Notation "s1 ;; s2" := (bind s1 (fun _ => s2))
  (at level 61, right associativity).

Definition is_ok {A} (r : result A) : bool :=
  match r with Ok _ => true | Throw _ => false end.

(* ================================================================== *)
(** * JavaScript strings

    A JavaScript string is a sequence of UTF-16 code units; [length] and
    regular expressions without the [u] flag both count code units. *)

Definition jsstring := list N.

(** The code units of an ASCII literal. *)
Fixpoint js (s : string) : jsstring :=
  match s with
  | EmptyString => []
  | String a s' => N_of_ascii a :: js s'
  end.

(** [s && ...] : a string is truthy unless it is empty. *)
Definition truthy (s : jsstring) : bool :=
  match s with [] => false | _ :: _ => true end.

(* ================================================================== *)
(** * JavaScript numbers

    A [number] is a finite value, [NaN] or an infinity.  Every finite
    double is a rational, comparisons and [Number.isInteger] on doubles
    are exact, so finite values are carried as rationals ([-0] is
    identified with [0]; the two are indistinguishable by the operations
    below). *)

Inductive number : Type :=
| Finite (q : Q)
| NaN
| PosInfinity
| NegInfinity.

Definition int (z : Z) : number := Finite (inject_Z z).

(** [a < b] *)
Definition lt (a b : number) : bool :=
  match a, b with
  | NaN, _ | _, NaN => false
  | Finite x, Finite y => negb (Qle_bool y x)
  | NegInfinity, (Finite _ | PosInfinity) => true
  | Finite _, PosInfinity => true
  | _, _ => false
  end.

(** [a > b] *)
Definition gt (a b : number) : bool := lt b a.

(** [Number.isInteger(x)] *)
Definition Number_isInteger (x : number) : bool :=
  match x with
  | Finite q => (Qnum q mod Zpos (Qden q) =? 0)%Z
  | _ => false
  end.

(** The integer an integral finite value stands for. *)
Definition Qfloor_int (q : Q) : Z := Qnum q / Zpos (Qden q).

(** [z] is a positive power of two, [z = 2^(log2 z)]. *)
Definition is_pow2 (z : Z) : bool := ((0 <? z) && (2 ^ Z.log2 z =? z))%Z.

(** [Math.log2(x) % 1 === 0].  [Math.log2] is an approximation that the
    runtime computes and rounds to a double, so the test asks whether the
    rounded logarithm is an integral double.  The model computes the answer
    where the language or the size of the numbers fixes it:
      - [Math.log2] is [NaN] on [NaN] and on negative values, [-Infinity]
        on [0] and [Infinity] on [Infinity]; [% 1] of each is [NaN], and
        [NaN === 0] is false;
      - on an integer from 1 to 4096 the logarithm is an integer at the
        powers of two, where the runtime is exact, and is more than [2^-13]
        away from every integer elsewhere, far beyond the rounding.
    On every other finite value - the fractions, and the integers above
    4096 - the answer depends on how the runtime rounds: the logarithm of
    a double next to a power of two, such as 16.000000000000004, rounds to
    an integer.  That answer is [log2_integral], a parameter of the
    model. *)
Section MathLog2.

Variable log2_integral : Q -> bool.

Definition Math_log2_mod1_is_0 (x : number) : bool :=
  match x with
  | Finite q =>
      if Qle_bool q 0 then false
      else if Number_isInteger x && (Qfloor_int q <=? 4096)%Z
           then is_pow2 (Qfloor_int q)
           else log2_integral q
  | _ => false
  end.

End MathLog2.

(** [Number.prototype.toString()], radix 10.  An integral value of
    magnitude below [2^53] prints as its decimal digits, with a leading [-]
    when negative.  Every other finite value (a fraction, or a larger
    magnitude) prints as the shortest decimal that reads back as the same
    double, in exponent notation from [10^21] on: that is left to [render],
    a parameter of the model. *)
Section NumberToString.

Variable render : Q -> string.

Definition Number_toString (x : number) : string :=
  match x with
  | NaN => "NaN"
  | PosInfinity => "Infinity"
  | NegInfinity => "-Infinity"
  | Finite q =>
      if Number_isInteger x && (Z.abs (Qfloor_int q) <? 2 ^ 53)%Z
      then NilZero.string_of_int (Z.to_int (Qfloor_int q))
      else render q
  end.

End NumberToString.

(* ================================================================== *)
(** * Regular expressions

    The patterns of the sources use literals, [.], character classes,
    grouping with an empty alternative and bounded repetition [{lo,hi}];
    every one of them is anchored at both ends ([^...$]) and has no flag. *)

Inductive regex : Type :=
| Eps                                        (* the empty alternative *)
| Chr (c : N)                                (* a literal code unit *)
| Dot                                        (* [.] *)
| Class (negated : bool) (ranges : list (N * N))  (* [[...]] and [[^...]] *)
| Seq (a b : regex)
| Alt (a b : regex)
| Rep (a : regex) (lo hi : nat).             (* [a{lo,hi}] *)

(** A literal run of ASCII characters. *)
Fixpoint lit (s : string) : regex :=
  match s with
  | EmptyString => Eps
  | String a s' => Seq (Chr (N_of_ascii a)) (lit s')
  end.

Definition in_ranges (c : N) (ranges : list (N * N)) : bool :=
  existsb (fun r => (fst r <=? c)%N && (c <=? snd r)%N) ranges.

Definition class_matches (negated : bool) (ranges : list (N * N)) (c : N) : bool :=
  xorb negated (in_ranges c ranges).

(** Without the [s] flag [.] matches any code unit but the line
    terminators LF, CR, U+2028 and U+2029. *)
Definition line_terminators : list (N * N) :=
  [(10, 10); (13, 13); (8232, 8232); (8233, 8233)]%N.

Definition dot_matches (c : N) : bool := negb (in_ranges c line_terminators).

(** The backtracking matcher, in continuation-passing style as in the
    language definition: [matcher r s k] tries every way of matching a
    prefix of [s] against [r] (the greedy one first) and hands the rest of
    the input to [k]. *)
Fixpoint repeat_matcher (m : jsstring -> (jsstring -> bool) -> bool)
    (lo hi : nat) (s : jsstring) (k : jsstring -> bool) : bool :=
  match hi with
  | O => match lo with O => k s | S _ => false end
  | S hi' =>
      m s (fun s' => repeat_matcher m (Nat.pred lo) hi' s' k)
      || match lo with O => k s | S _ => false end
  end.

Fixpoint matcher (r : regex) (s : jsstring) (k : jsstring -> bool) : bool :=
  match r with
  | Eps => k s
  | Chr c => match s with x :: s' => (x =? c)%N && k s' | [] => false end
  | Dot => match s with x :: s' => dot_matches x && k s' | [] => false end
  | Class negated ranges =>
      match s with
      | x :: s' => class_matches negated ranges x && k s'
      | [] => false
      end
  | Seq a b => matcher a s (fun s' => matcher b s' k)
  | Alt a b => matcher a s k || matcher b s k
  | Rep a lo hi => repeat_matcher (matcher a) lo hi s k
  end.

Definition at_end (s : jsstring) : bool :=
  match s with [] => true | _ :: _ => false end.

(** [new RegExp('^' + r + '$').test(s)] *)
Definition RegExp_test (r : regex) (s : jsstring) : bool := matcher r s at_end.

(** The words of a regular expression. *)
Fixpoint power (L : jsstring -> Prop) (n : nat) (s : jsstring) : Prop :=
  match n with
  | O => s = []
  | S n' => exists s1 s2, s = (s1 ++ s2)%list /\ L s1 /\ power L n' s2
  end.

Fixpoint lang (r : regex) (s : jsstring) : Prop :=
  match r with
  | Eps => s = []
  | Chr c => s = [c]
  | Dot => exists x, s = [x] /\ dot_matches x = true
  | Class negated ranges =>
      exists x, s = [x] /\ class_matches negated ranges x = true
  | Seq a b => exists s1 s2, s = (s1 ++ s2)%list /\ lang a s1 /\ lang b s2
  | Alt a b => lang a s \/ lang b s
  | Rep a lo hi => exists n, (lo <= n <= hi)%nat /\ power (lang a) n s
  end.

(* ================================================================== *)
(** * [lib/backup-start-time.ts] *)

Module BackupStartTime.

(** [interface BackupStartTimeProps] *)
Record BackupStartTimeProps : Type := {
  hour : number;
  minute : number
}.

(** The two private fields of [class BackupStartTime]. *)
Record BackupStartTime : Type := {
  this_hour : string;
  this_minute : string
}.

(** [private validate(hour: number, minute: number)] *)
Definition validate (hour minute : number) : result unit :=
  (if negb (Number_isInteger hour) || lt hour (int 0) || gt hour (int 24)
   then Throw "Maintenance time hour must be an integer between 0 and 24"
   else Ok tt) ;;
  (if negb (Number_isInteger minute) || lt minute (int 0) || gt minute (int 59)
   then Throw "Maintenance time minute must be an integer between 0 and 59"
   else Ok tt).

Section WithRender.

Variable render : Q -> string.

(** [private getTwoDigitString(n: number): string] *)
Definition getTwoDigitString (n : number) : string :=
  let numberString := Number_toString render n in
  if (String.length numberString =? 1)%nat
  then "0" ++ Number_toString render n
  else numberString.

(** [constructor(props: BackupStartTimeProps)] *)
Definition constructor (props : BackupStartTimeProps) : result BackupStartTime :=
  validate (hour props) (minute props) ;;
  Ok {| this_hour := getTwoDigitString (hour props);
        this_minute := getTwoDigitString (minute props) |}.

End WithRender.

(** [public toTimestamp(): string] *)
Definition toTimestamp (this : BackupStartTime) : string :=
  this_hour this ++ ":" ++ this_minute this.

End BackupStartTime.

(* ================================================================== *)
(** * The weekly maintenance time *)

Module MaintenanceTime.

(** Modelled from the spec: the [Weekday] enumeration, whose source is
    not among the files of the package; "a 1-based weekday index with a
    fixed mapping (Monday=1 ... Sunday=7, source enum order starting at
    Monday)". *)
Inductive Weekday : Type :=
| MONDAY | TUESDAY | WEDNESDAY | THURSDAY | FRIDAY | SATURDAY | SUNDAY.

(** Modelled from the spec: the weekday index, "Monday=1 ... Sunday=7". *)
Definition weekday_index (d : Weekday) : Z :=
  match d with
  | MONDAY => 1 | TUESDAY => 2 | WEDNESDAY => 3 | THURSDAY => 4
  | FRIDAY => 5 | SATURDAY => 6 | SUNDAY => 7
  end.

(** Modelled from the spec: the arguments of the maintenance time class,
    "(weekday, hour, minute)". *)
Record MaintenanceTimeProps : Type := {
  day : Weekday;
  hour : number;
  minute : number
}.

(** Modelled from the spec: the state of a maintenance time object, the
    three parts of its timestamp. *)
Record MaintenanceTime : Type := {
  this_day : string;
  this_hour : string;
  this_minute : string
}.

Section WithRender.

Variable render : Q -> string.

(** Modelled from the spec: the constructor of the maintenance time
    class ([./windows-maintenance-time], [./lustre-maintenance-time]),
    of which only the test file is present.  "The two variants
    (backup-only vs. maintenance-with-weekday) are a tagged-variant
    pair sharing the hour/minute validation logic exactly - implement
    as one shared validator plus two formatting paths"; the weekday is
    kept as its unpadded index, hour and minute as two digits. *)
Definition constructor (props : MaintenanceTimeProps) : result MaintenanceTime :=
  BackupStartTime.validate (hour props) (minute props) ;;
  Ok {| this_day := Number_toString render (int (weekday_index (day props)));
        this_hour := BackupStartTime.getTwoDigitString render (hour props);
        this_minute := BackupStartTime.getTwoDigitString render (minute props) |}.

End WithRender.

(** Modelled from the spec: [toTimestamp] of the maintenance time class,
    "canonical D:HH:MM string". *)
Definition toTimestamp (this : MaintenanceTime) : string :=
  this_day this ++ ":" ++ this_hour this ++ ":" ++ this_minute this.

End MaintenanceTime.

(* ================================================================== *)
(** * External collaborators

    The constructs of [@aws-cdk/aws-ec2], [@aws-cdk/aws-kms], [constructs]
    and the generated [CfnFileSystem] are used through what the file system
    classes hand to them and read back from them.  Their effects are kept
    in a [World]: the children attached to the construct tree, the security
    groups allocated, the ingress rules added and the [CfnFileSystem]
    resources created, each with the property tree it was given. *)

Record ISecurityGroup : Type := { securityGroupId : jsstring }.
Record IVpc : Type := { vpcId : jsstring }.
Record ISubnet : Type := { subnetId : jsstring }.
Record IKey : Type := { keyId : jsstring }.

Inductive RemovalPolicy : Type := DESTROY | RETAIN | SNAPSHOT.

(** [Port.tcpRange(startPort, endPort)] *)
Record Port : Type := tcpRange { startPort : Z; endPort : Z }.

(** [new Connections({ securityGroups, defaultPort })] *)
Record Connections : Type := {
  securityGroups : list ISecurityGroup;
  defaultPort : Port
}.

Record IngressRule : Type := {
  rule_group : ISecurityGroup;
  rule_peer : ISecurityGroup;
  rule_port : Port
}.

(** A construct is known by its path in the tree. *)
Definition Construct := jsstring.

Definition child (scope : Construct) (id : string) : Construct :=
  (scope ++ js "/" ++ js id)%list.

Record World (Tree : Type) : Type := {
  constructs : list Construct;
  allocatedSecurityGroups : list (ISecurityGroup * IVpc);
  ingressRules : list IngressRule;
  cfnFileSystems : list (Construct * Tree * option RemovalPolicy)
}.

Arguments constructs {Tree} w.
Arguments allocatedSecurityGroups {Tree} w.
Arguments ingressRules {Tree} w.
Arguments cfnFileSystems {Tree} w.

(** [this.env.region] and [Aws.URL_SUFFIX] *)
Record Env : Type := { region : jsstring; URL_SUFFIX : jsstring }.

Section Effects.

Variable Tree : Type.

(** [super(scope, id)]: the new construct is attached to its scope. *)
Definition super (scope : Construct) (id : string) (w : World Tree)
  : Construct * World Tree :=
  let this := child scope id in
  (this,
   {| constructs := constructs w ++ [this];
      allocatedSecurityGroups := allocatedSecurityGroups w;
      ingressRules := ingressRules w;
      cfnFileSystems := cfnFileSystems w |}).

(** [new SecurityGroup(scope, id, { vpc })] *)
Definition new_SecurityGroup (scope : Construct) (id : string) (vpc : IVpc)
    (w : World Tree) : ISecurityGroup * World Tree :=
  let this := child scope id in
  let group := {| securityGroupId := this |} in
  (group,
   {| constructs := constructs w ++ [this];
      allocatedSecurityGroups := allocatedSecurityGroups w ++ [(group, vpc)];
      ingressRules := ingressRules w;
      cfnFileSystems := cfnFileSystems w |}).

(** [group.addIngressRule(peer, port)] *)
Definition addIngressRule (group peer : ISecurityGroup) (port : Port)
    (w : World Tree) : World Tree :=
  {| constructs := constructs w;
     allocatedSecurityGroups := allocatedSecurityGroups w;
     ingressRules :=
       ingressRules w
       ++ [{| rule_group := group; rule_peer := peer; rule_port := port |}];
     cfnFileSystems := cfnFileSystems w |}.

(** [const r = new CfnFileSystem(scope, id, tree);
    r.applyRemovalPolicy(policy)]; the result is [r.ref]. *)
Definition new_CfnFileSystem (scope : Construct) (id : string) (tree : Tree)
    (policy : option RemovalPolicy) (w : World Tree)
  : jsstring * World Tree :=
  let this := child scope id in
  (this,
   {| constructs := constructs w ++ [this];
      allocatedSecurityGroups := allocatedSecurityGroups w;
      ingressRules := ingressRules w;
      cfnFileSystems := cfnFileSystems w ++ [(this, tree, policy)] |}).

End Effects.

(** Modelled from the spec: [FileSystemAttributes] of [./file-system],
    "caller-supplied attributes (existing endpoint name, existing resource
    id, existing network boundary)". *)
Record FileSystemAttributes : Type := {
  attrs_dnsName : jsstring;
  attrs_fileSystemId : jsstring;
  attrs_securityGroup : ISecurityGroup
}.

(** Modelled from the spec: [FileSystemProps] of [./file-system], the
    "deployment context (network placement, optional pre-existing
    network-boundary reference, optional encryption-key reference, optional
    backup-source reference, retention/removal policy)" with the storage
    capacity; the fields are those the constructors read. *)
Record FileSystemProps : Type := {
  backupId : option jsstring;
  kmsKey : option IKey;
  removalPolicy : option RemovalPolicy;
  securityGroup : option ISecurityGroup;
  storageCapacityGiB : number;
  vpc : IVpc
}.

(** What both revisions of the class expose: [IFileSystem]. *)
Record FileSystemHandle : Type := {
  connections : Connections;
  dnsName : jsstring;
  fileSystemId : jsstring
}.

(** [private static readonly DEFAULT_FILE_SYSTEM_TYPE] *)
Definition DEFAULT_FILE_SYSTEM_TYPE : string := "WINDOWS".

(** [private static readonly DEFAULT_PORT_RANGE] *)
Definition DEFAULT_PORT_RANGE : Port := tcpRange 988 1023.

(** [private static configureConnections(securityGroup)] *)
Definition configureConnections (securityGroup : ISecurityGroup) : Connections :=
  {| securityGroups := [securityGroup];
     defaultPort := tcpRange (startPort DEFAULT_PORT_RANGE)
                             (endPort DEFAULT_PORT_RANGE) |}.

(** [export enum WindowsDeploymentType] *)
Inductive WindowsDeploymentType : Type := MULTI_AZ_1 | SINGLE_AZ_1 | SINGLE_AZ_2.

(** [export enum WindowsStorageType] *)
Inductive WindowsStorageType : Type := SSD | HDD.

(** [deploymentType === WindowsDeploymentType.MULTI_AZ_1] *)
Definition is_MULTI_AZ_1 (d : WindowsDeploymentType) : bool :=
  match d with MULTI_AZ_1 => true | _ => false end.

(* ================================================================== *)
(** * [lib/audit-log-configuration.ts] *)

Inductive FileAccessAuditLogLevel : Type :=
| FA_DISABLED | FA_SUCCESS_ONLY | FA_FAILURE_ONLY | FA_SUCCESS_AND_FAILURE.

Inductive FileShareAccessAuditLogLevel : Type :=
| FSA_DISABLED | FSA_SUCCESS_ONLY | FSA_FAILURE_ONLY | FSA_SUCCESS_AND_FAILURE.

Record AuditLogConfiguration : Type := {
  auditLogDestination : option jsstring;
  fileAccessAuditLogLevel : FileAccessAuditLogLevel;
  fileShareAccessAuditLogLevel : FileShareAccessAuditLogLevel
}.

(* ================================================================== *)
(** * [lib/self-managed-AD-configuration.ts] *)

Record SelfManagedActiveDirectoryConfiguration : Type := {
  dnsIps : option (list jsstring);
  domainName : option jsstring;
  fileSystemAdministratorsGroup : option jsstring;
  organizationalUnitDistinguishedName : option jsstring;
  password : option jsstring;
  username : option jsstring
}.

(** [x?.f] *)
Definition opt_chain {A B} (x : option A) (f : A -> option B) : option B :=
  match x with Some a => f a | None => None end.

(* ================================================================== *)
(** * [lib/windows-file-system.ts] *)

Module WindowsFileSystemTs.

(** [export interface WindowsConfiguration] *)
Record WindowsConfiguration : Type := {
  deploymentType : WindowsDeploymentType;
  storageType : WindowsStorageType;
  throughputCapacity : number
}.

(** [export interface WindowsFileSystemProps extends FileSystemProps] *)
Record WindowsFileSystemProps : Type := {
  base : FileSystemProps;
  windowsConfiguration : WindowsConfiguration;
  vpcSubnet : ISubnet
}.

(** The property tree handed to [CfnFileSystem]. *)
Record CfnFileSystemProps : Type := {
  cfn_fileSystemType : string;
  cfn_subnetIds : list jsstring;
  cfn_backupId : option jsstring;
  cfn_kmsKeyId : option jsstring;
  cfn_windowsConfiguration : WindowsConfiguration;
  cfn_securityGroupIds : list jsstring;
  cfn_storageCapacity : number
}.

(** The runtime's rounding of [Math.log2], see [Math_log2_mod1_is_0]. *)
Section WithRuntime.

Variable log2_integral : Q -> bool.

(** [private validateThroughputCapacity(throughputCapacity: number)] *)
Definition validateThroughputCapacity (throughputCapacity : number) : result unit :=
  if (lt throughputCapacity (int 8) || gt throughputCapacity (int 4096))
     || negb (Math_log2_mod1_is_0 log2_integral throughputCapacity)
  then Throw "throughput capacity must be between 8 and 4096 GiB and a power of 2"
  else Ok tt.

(** [private validateStorageCapacity(storageCapacity: number)] *)
Definition validateStorageCapacity (storageCapacity : number) : result unit :=
  if lt storageCapacity (int 32) || gt storageCapacity (int 65536)
  then Throw "storageCapacity must be between 32 and 65536 GiB"
  else Ok tt.

(** [private validateProps(props: WindowsFileSystemProps)] *)
Definition validateProps (props : WindowsFileSystemProps) : result unit :=
  let windowsConfiguration := windowsConfiguration props in
  let throughputCapacity := throughputCapacity windowsConfiguration in
  validateThroughputCapacity throughputCapacity ;;
  validateStorageCapacity (storageCapacityGiB (base props)).

(** [constructor(scope: Construct, id: string, props)] *)
Definition constructor (env : Env) (scope : Construct) (id : string)
    (props : WindowsFileSystemProps) (w0 : World CfnFileSystemProps)
  : result FileSystemHandle * World CfnFileSystemProps :=
  let (this, w1) := super scope id w0 in
  match validateProps props with
  | Throw message => (Throw message, w1)
  | Ok _ =>
      let windowsConfiguration := windowsConfiguration props in
      let (securityGroup, w2) :=
        match securityGroup (base props) with
        | Some group => (group, w1)
        | None => new_SecurityGroup this "FsxWindowsSecurityGroup"
                    (vpc (base props)) w1
        end in
      let w3 := addIngressRule securityGroup securityGroup
                  (tcpRange (startPort DEFAULT_PORT_RANGE)
                            (endPort DEFAULT_PORT_RANGE)) w2 in
      let connections := configureConnections securityGroup in
      let (ref, w4) :=
        new_CfnFileSystem this "Resource"
          {| cfn_fileSystemType := DEFAULT_FILE_SYSTEM_TYPE;
             cfn_subnetIds := [subnetId (vpcSubnet props)];
             cfn_backupId := backupId (base props);
             cfn_kmsKeyId := option_map keyId (kmsKey (base props));
             cfn_windowsConfiguration := windowsConfiguration;
             cfn_securityGroupIds := [securityGroupId securityGroup];
             cfn_storageCapacity := storageCapacityGiB (base props) |}
          (removalPolicy (base props)) w3 in
      (Ok {| connections := connections;
             dnsName := (ref ++ js ".fsx." ++ region env ++ js "."
                         ++ URL_SUFFIX env)%list;
             fileSystemId := ref |},
       w4)
  end.

End WithRuntime.

(** [public static fromWindowsFileSystemAttributes(scope, id, attrs)] *)
Definition fromWindowsFileSystemAttributes (scope : Construct) (id : string)
    (attrs : FileSystemAttributes) (w0 : World CfnFileSystemProps)
  : result FileSystemHandle * World CfnFileSystemProps :=
  let (_, w1) := super scope id w0 in
  (Ok {| dnsName := attrs_dnsName attrs;
         fileSystemId := attrs_fileSystemId attrs;
         connections := configureConnections (attrs_securityGroup attrs) |},
   w1).

End WindowsFileSystemTs.

(* ================================================================== *)
(** * The revision of the class with the full validator list ([part_000]) *)

Module WindowsFileSystem.

(** [export interface WindowsConfiguration] *)
Record WindowsConfiguration : Type := {
  deploymentType : WindowsDeploymentType;
  activeDirectoryId : option jsstring;
  aliases : option (list jsstring);
  auditLogConfiguration : option AuditLogConfiguration;
  automaticBackupRetentionDays : option number;
  copyTagsToBackups : option bool;
  dailyAutomaticBackupStartTime : option BackupStartTime.BackupStartTime;
  preferredSubnetId : option jsstring;
  selfManagedActiveDirectoryConfiguration :
    option SelfManagedActiveDirectoryConfiguration;
  storageType : option WindowsStorageType;
  throughputCapacity : number;
  weeklyMaintenanceStartTime : option MaintenanceTime.MaintenanceTime
}.

(** [export interface WindowsFileSystemProps extends FileSystemProps] *)
Record WindowsFileSystemProps : Type := {
  base : FileSystemProps;
  windowsConfiguration : WindowsConfiguration;
  vpcSubnet : ISubnet
}.

(** [Object.assign({}, props.windowsConfiguration, updatedWindowsProps)]:
    the configuration with its two time fields overwritten by their
    timestamps. *)
Record AssembledWindowsConfiguration : Type := {
  asm_deploymentType : WindowsDeploymentType;
  asm_activeDirectoryId : option jsstring;
  asm_aliases : option (list jsstring);
  asm_auditLogConfiguration : option AuditLogConfiguration;
  asm_automaticBackupRetentionDays : option number;
  asm_copyTagsToBackups : option bool;
  asm_dailyAutomaticBackupStartTime : option string;
  asm_preferredSubnetId : option jsstring;
  asm_selfManagedActiveDirectoryConfiguration :
    option SelfManagedActiveDirectoryConfiguration;
  asm_storageType : option WindowsStorageType;
  asm_throughputCapacity : number;
  asm_weeklyMaintenanceStartTime : option string
}.

(** The property tree handed to [CfnFileSystem]. *)
Record CfnFileSystemProps : Type := {
  cfn_fileSystemType : string;
  cfn_subnetIds : list jsstring;
  cfn_backupId : option jsstring;
  cfn_kmsKeyId : option jsstring;
  cfn_windowsConfiguration : AssembledWindowsConfiguration;
  cfn_securityGroupIds : list jsstring;
  cfn_storageCapacity : number
}.

(** ** The patterns, as [new RegExp] receives them *)

Definition code (a : ascii) : N := N_of_ascii a.

(** ['^d-[0-9a-f]{10}$'] *)
Definition activeDirectoryRegex : regex :=
  Seq (lit "d-")
      (Rep (Class false [(code "0", code "9"); (code "a", code "f")]) 10 10).

(** The class [[^\u0000\u0085\u2028\u2029\r\n]]. *)
Definition no_separator : regex :=
  Class true [(0, 0); (133, 133); (8232, 8232); (8233, 8233);
              (13, 13); (10, 10)]%N.

(** ['^[^\u0000\u0085\u2028\u2029\r\n]{1,255}$'] *)
Definition domainRegex : regex := Rep no_separator 1 255.

(** ['^[^\u0000\u0085\u2028\u2029\r\n]{1,256}$'] *)
Definition fsAdminGroupRegex : regex := Rep no_separator 1 256.

(** ['^[^\u0000\u0085\u2028\u2029\r\n]{1,2000}$'] *)
Definition ouNameRegex : regex := Rep no_separator 1 2000.

(** ['^.{1,256}$'] *)
Definition passwordRegex : regex := Rep Dot 1 256.

(** ['^[^\u0000\u0085\u2028\u2029\r\n]{1,256}$'] *)
Definition usernameRegex : regex := Rep no_separator 1 256.

(** ['^arn:[^:]{1,63}:[^:]{0,63}:[^:]{0,63}:(?:|\d{12}):[^/].{0,1023}$'].
    The pattern is written as a string literal, not as a regular
    expression literal: in a string literal the escape [\d] is the
    letter [d], so the pattern [new RegExp] receives has [d{12}], twelve
    letters [d], where a digit class was written. *)
Definition regexARN : regex :=
  let not_colon := Class true [(code ":", code ":")] in
  Seq (lit "arn:")
 (Seq (Rep not_colon 1 63)
 (Seq (Chr (code ":"))
 (Seq (Rep not_colon 0 63)
 (Seq (Chr (code ":"))
 (Seq (Rep not_colon 0 63)
 (Seq (Chr (code ":"))
 (Seq (Alt Eps (Rep (Chr (code "d")) 12 12))
 (Seq (Chr (code ":"))
 (Seq (Class true [(code "/", code "/")])
      (Rep Dot 0 1023)))))))))).

(** ** The validators *)

(** The runtime's rounding of [Math.log2], see [Math_log2_mod1_is_0]. *)
Section WithRuntime.

Variable log2_integral : Q -> bool.

(** [private validateActiveDirectoryId(activeDirectoryId?: string)] *)
Definition validateActiveDirectoryId (activeDirectoryId : option jsstring)
  : result unit :=
  match activeDirectoryId with
  | Some s =>
      if truthy s && negb (RegExp_test activeDirectoryRegex s)
      then Throw "Active Directory ID must begin with the literal d- and should be followed by exactly 10 alphanumeric characters. Allowed alphanumeric values include 0-9 and a-f."
      else Ok tt
  | None => Ok tt
  end.

(** [private validateThroughputCapacity(throughputCapacity: number)] *)
Definition validateThroughputCapacity (throughputCapacity : number) : result unit :=
  if (lt throughputCapacity (int 8) || gt throughputCapacity (int 4096))
     || negb (Math_log2_mod1_is_0 log2_integral throughputCapacity)
  then Throw "Throughput Capacity must be between 8 and 4096 GiB and a power of 2"
  else Ok tt.

(** [private validateAliases(aliases?: string[])] *)
Definition validateAliases (aliases : option (list jsstring)) : result unit :=
  match aliases with
  | Some l =>
      if (50 <? List.length l)%nat
      then Throw "List must not exceed 50 DNS alias names."
      else Ok tt
  | None => Ok tt
  end.

(** [private validatePreferredSubnetId(deploymentType, preferredSubnetId?)] *)
Definition validatePreferredSubnetId (deploymentType : WindowsDeploymentType)
    (preferredSubnetId : option jsstring) : result unit :=
  if is_MULTI_AZ_1 deploymentType
     && match preferredSubnetId with None => true | Some _ => false end
  then Throw "Preferred Subnet ID is required when deploymentType is set to MULTI_AZ_1"
  else Ok tt.

(** [private validateDnsIps(dnsIps?: string[])] *)
Definition validateDnsIps (dnsIps : option (list jsstring)) : result unit :=
  match dnsIps with
  | Some l =>
      if (3 <? List.length l)%nat
      then Throw "List must not exceed 3 DNS IPs."
      else Ok tt
  | None => Ok tt
  end.

(** The shape shared by the string validators:
    [if (value && !regex.test(value)) throw new Error(message)]. *)
Definition validateString (pattern : regex) (message : string)
    (value : option jsstring) : result unit :=
  match value with
  | Some s =>
      if truthy s && negb (RegExp_test pattern s)
      then Throw message
      else Ok tt
  | None => Ok tt
  end.

(** [private validateDomainName(domainName?: string)] *)
Definition validateDomainName : option jsstring -> result unit :=
  validateString domainRegex
    "Value must be a valid Domain Name. It must not contain newline, carriage return, line separator or paragraph separator and must not exceed 255 characters limit.".

(** [private validateFileSystemAdministratorsGroup(...)] *)
Definition validateFileSystemAdministratorsGroup : option jsstring -> result unit :=
  validateString fsAdminGroupRegex
    "Value must be a valid Domain Group. It must not contain newline, carriage return, line separator or paragraph separator and must not exceed 256 characters limit.".

(** [private validateOrganizationalUnitDistinguishedName(...)] *)
Definition validateOrganizationalUnitDistinguishedName
  : option jsstring -> result unit :=
  validateString ouNameRegex
    "Value must be a valid fully qualified distinguished name of the organizational unit. It must not contain newline, carriage return, line separator or paragraph separator and must not exceed 2000 characters limit.".

(** [private validatePassword(password?: string)] *)
Definition validatePassword : option jsstring -> result unit :=
  validateString passwordRegex
    "Password must not exceed 256 characters limit.".

(** [private validateUsername(username?: string)] *)
Definition validateUsername : option jsstring -> result unit :=
  validateString usernameRegex
    "Username must not contain newline, carriage return, line separator or paragraph separator and must not exceed 256 characters limit.".

(** [private validateARN(auditLogDestination?: string)] *)
Definition validateARN : option jsstring -> result unit :=
  validateString regexARN "Audit Log Destination must be a valid ARN".

(** [private validateProps(props: WindowsFileSystemProps)] *)
Definition validateProps (props : WindowsFileSystemProps) : result unit :=
  let windowsConfiguration := windowsConfiguration props in
  let selfManaged := selfManagedActiveDirectoryConfiguration windowsConfiguration in
  validateActiveDirectoryId (activeDirectoryId windowsConfiguration) ;;
  validateThroughputCapacity (throughputCapacity windowsConfiguration) ;;
  validateAliases (aliases windowsConfiguration) ;;
  validatePreferredSubnetId (deploymentType windowsConfiguration)
                            (preferredSubnetId windowsConfiguration) ;;
  validateDnsIps (opt_chain selfManaged dnsIps) ;;
  validateDomainName (opt_chain selfManaged domainName) ;;
  validateFileSystemAdministratorsGroup
    (opt_chain selfManaged fileSystemAdministratorsGroup) ;;
  validateOrganizationalUnitDistinguishedName
    (opt_chain selfManaged organizationalUnitDistinguishedName) ;;
  validatePassword (opt_chain selfManaged password) ;;
  validateUsername (opt_chain selfManaged username) ;;
  validateARN (opt_chain (auditLogConfiguration windowsConfiguration)
                         auditLogDestination).

(** [Object.assign({}, props.windowsConfiguration, updatedWindowsProps)]
    with [updatedWindowsProps] holding the two [?.toTimestamp()]. *)
Definition assemble (c : WindowsConfiguration) : AssembledWindowsConfiguration :=
  {| asm_deploymentType := deploymentType c;
     asm_activeDirectoryId := activeDirectoryId c;
     asm_aliases := aliases c;
     asm_auditLogConfiguration := auditLogConfiguration c;
     asm_automaticBackupRetentionDays := automaticBackupRetentionDays c;
     asm_copyTagsToBackups := copyTagsToBackups c;
     asm_dailyAutomaticBackupStartTime :=
       option_map BackupStartTime.toTimestamp (dailyAutomaticBackupStartTime c);
     asm_preferredSubnetId := preferredSubnetId c;
     asm_selfManagedActiveDirectoryConfiguration :=
       selfManagedActiveDirectoryConfiguration c;
     asm_storageType := storageType c;
     asm_throughputCapacity := throughputCapacity c;
     asm_weeklyMaintenanceStartTime :=
       option_map MaintenanceTime.toTimestamp (weeklyMaintenanceStartTime c) |}.

(** [constructor(scope: Construct, id: string, props)] *)
Definition constructor (env : Env) (scope : Construct) (id : string)
    (props : WindowsFileSystemProps) (w0 : World CfnFileSystemProps)
  : result FileSystemHandle * World CfnFileSystemProps :=
  let (this, w1) := super scope id w0 in
  match validateProps props with
  | Throw message => (Throw message, w1)
  | Ok _ =>
      let windowsConfiguration := assemble (windowsConfiguration props) in
      let (securityGroup, w2) :=
        match securityGroup (base props) with
        | Some group => (group, w1)
        | None => new_SecurityGroup this "FsxWindowsSecurityGroup"
                    (vpc (base props)) w1
        end in
      let w3 := addIngressRule securityGroup securityGroup
                  (tcpRange (startPort DEFAULT_PORT_RANGE)
                            (endPort DEFAULT_PORT_RANGE)) w2 in
      let connections := configureConnections securityGroup in
      let (ref, w4) :=
        new_CfnFileSystem this "Resource"
          {| cfn_fileSystemType := DEFAULT_FILE_SYSTEM_TYPE;
             cfn_subnetIds := [subnetId (vpcSubnet props)];
             cfn_backupId := backupId (base props);
             cfn_kmsKeyId := option_map keyId (kmsKey (base props));
             cfn_windowsConfiguration := windowsConfiguration;
             cfn_securityGroupIds := [securityGroupId securityGroup];
             cfn_storageCapacity := storageCapacityGiB (base props) |}
          (removalPolicy (base props)) w3 in
      (Ok {| connections := connections;
             dnsName := (ref ++ js ".fsx." ++ region env ++ js "."
                         ++ URL_SUFFIX env)%list;
             fileSystemId := ref |},
       w4)
  end.

End WithRuntime.

(** [public static fromWindowsFileSystemAttributes(scope, id, attrs)]:
    [new Import(scope, id)], whose three fields are initialised from
    [attrs]. *)
Definition fromWindowsFileSystemAttributes (scope : Construct) (id : string)
    (attrs : FileSystemAttributes) (w0 : World CfnFileSystemProps)
  : result FileSystemHandle * World CfnFileSystemProps :=
  let (_, w1) := super scope id w0 in
  (Ok {| dnsName := attrs_dnsName attrs;
         fileSystemId := attrs_fileSystemId attrs;
         connections := configureConnections (attrs_securityGroup attrs) |},
   w1).

End WindowsFileSystem.

(* ================================================================== *)
(** * Vocabulary of the specification *)

(** [x] is an integer between [lo] and [hi]. *)
Definition integer_between (lo hi : Z) (x : number) : Prop :=
  exists q z, x = Finite q /\ q == inject_Z z /\ (lo <= z <= hi)%Z.

(** [needle] occurs in [hay]. *)
Definition contains (needle hay : string) : bool :=
  match index 0 needle hay with Some _ => true | None => false end.

(** The decimal digit of [z], for [0 <= z <= 9]. *)
Definition digit (z : Z) : ascii := ascii_of_nat (48 + Z.to_nat z).

(** [z] written with two digits, zero-padded, for [0 <= z <= 99]. *)
Definition two_digits (z : Z) : string :=
  String (digit (z / 10)) (String (digit (z mod 10)) EmptyString).

(** What the specification asks of a throughput capacity: a value between
    8 and 4096 that is a power of two. *)
Definition valid_throughput (v : number) : Prop :=
  exists q, v = Finite q /\ (inject_Z 8 <= q)%Q /\ (q <= inject_Z 4096)%Q
            /\ exists k, (0 <= k)%Z /\ q == inject_Z (2 ^ k).

(** The condition under which both revisions of the throughput validator
    throw, [log2r] being the runtime's rounding of [Math.log2]. *)
Definition throughput_rejected (log2r : Q -> bool) (v : number) : bool :=
  (lt v (int 8) || gt v (int 4096)) || negb (Math_log2_mod1_is_0 log2r v).

(** What the throughput validators let through: a value from 8 to 4096
    that is a power of two when it is an integer, and whose logarithm the
    runtime rounds to an integer when it is not. *)
Definition throughput_accepted (log2r : Q -> bool) (v : number) : Prop :=
  exists q, v = Finite q /\ (inject_Z 8 <= q)%Q /\ (q <= inject_Z 4096)%Q
            /\ ((Number_isInteger v = true
                 /\ exists k, (0 <= k)%Z /\ q == inject_Z (2 ^ k))
                \/ (Number_isInteger v = false /\ log2r q = true)).

(** The double after 16, [16 + 2^-48], printed 16.000000000000004, and the
    double before 4096, [4096 - 2^-41], printed 4095.9999999999995. *)
Definition after_16 : Q := 4503599627370497 # 281474976710656.
Definition before_4096 : Q := 9007199254740991 # 2199023255552.

(** A runtime for the closed instances below: it rounds the logarithms of
    these two doubles to 4 and to 12, as a [Math.log2] that rounds to the
    nearest double does (the logarithms are nearer to 4 and to 12 than half
    the distance to the next double, see [logarithms_nearest_to_integers]),
    and no other logarithm of a fraction to an integer. *)
Definition sample_log2 (q : Q) : bool :=
  Qeq_bool q after_16 || Qeq_bool q before_4096.

(** The condition under which a time-of-day component is refused. *)
Definition out_of_range (lo hi : Z) (x : number) : bool :=
  negb (Number_isInteger x) || lt x (int lo) || gt x (int hi).

(** A way of printing the numbers [Number_toString] leaves open, for the
    closed instances below. *)
Definition no_render (q : Q) : string := EmptyString.

(** The characters no free-text field of the directory configuration may
    hold: NUL, NEL, line separator, paragraph separator, carriage return
    and line feed. *)
Definition separators : list N := [0; 133; 8232; 8233; 13; 10]%N.

(** What the specification asks of a domain name. *)
Definition valid_domain_name (s : jsstring) : Prop :=
  (1 <= List.length s <= 255)%nat /\ Forall (fun c => ~ In c separators) s.

(** The grammar of the specification,
    [arn:<partition>:<service>:<region>:<account-or-empty>:<resource>]. *)
Definition colon : N := 58%N.

Definition arn (partition service region account resource : jsstring) : jsstring :=
  (js "arn:" ++ partition ++ [colon] ++ service ++ [colon] ++ region ++ [colon]
   ++ account ++ [colon] ++ resource)%list.

Definition is_digit (c : N) : bool := (48 <=? c)%N && (c <=? 57)%N.

(** The outcome of running checks in order and stopping at the first that
    throws. *)
Fixpoint first_failure (checks : list (result unit)) : result unit :=
  match checks with
  | [] => Ok tt
  | Ok _ :: rest => first_failure rest
  | Throw message :: _ => Throw message
  end.

(** The validators [validateProps] of [part_000] calls, in its order. *)
Definition validators (log2r : Q -> bool)
    (props : WindowsFileSystem.WindowsFileSystemProps)
  : list (result unit) :=
  let c := WindowsFileSystem.windowsConfiguration props in
  let ad := WindowsFileSystem.selfManagedActiveDirectoryConfiguration c in
  [ WindowsFileSystem.validateActiveDirectoryId (WindowsFileSystem.activeDirectoryId c);
    WindowsFileSystem.validateThroughputCapacity log2r
      (WindowsFileSystem.throughputCapacity c);
    WindowsFileSystem.validateAliases (WindowsFileSystem.aliases c);
    WindowsFileSystem.validatePreferredSubnetId
      (WindowsFileSystem.deploymentType c) (WindowsFileSystem.preferredSubnetId c);
    WindowsFileSystem.validateDnsIps (opt_chain ad dnsIps);
    WindowsFileSystem.validateDomainName (opt_chain ad domainName);
    WindowsFileSystem.validateFileSystemAdministratorsGroup
      (opt_chain ad fileSystemAdministratorsGroup);
    WindowsFileSystem.validateOrganizationalUnitDistinguishedName
      (opt_chain ad organizationalUnitDistinguishedName);
    WindowsFileSystem.validatePassword (opt_chain ad password);
    WindowsFileSystem.validateUsername (opt_chain ad username);
    WindowsFileSystem.validateARN
      (opt_chain (WindowsFileSystem.auditLogConfiguration c) auditLogDestination) ].

(** The validators [validateProps] of [lib/windows-file-system.ts] calls. *)
Definition validators_ts (log2r : Q -> bool)
    (props : WindowsFileSystemTs.WindowsFileSystemProps)
  : list (result unit) :=
  [ WindowsFileSystemTs.validateThroughputCapacity log2r
      (WindowsFileSystemTs.throughputCapacity
         (WindowsFileSystemTs.windowsConfiguration props));
    WindowsFileSystemTs.validateStorageCapacity
      (storageCapacityGiB (WindowsFileSystemTs.base props)) ].

(** The storage capacities [validateStorageCapacity] lets through: the
    finite values from 32 to 65536, and [NaN], which no comparison holds
    of. *)
Definition storage_accepted (s : number) : Prop :=
  s = NaN \/ exists q, s = Finite q /\ (inject_Z 32 <= q)%Q /\ (q <= inject_Z 65536)%Q.

(** Nothing was allocated, opened or created between two worlds. *)
Definition nothing_assembled {Tree : Type} (before after : World Tree) : Prop :=
  allocatedSecurityGroups after = allocatedSecurityGroups before
  /\ ingressRules after = ingressRules before
  /\ cfnFileSystems after = cfnFileSystems before.

(** ** Sample inputs *)

Definition sample_env : Env :=
  {| region := js "eu-central-1"; URL_SUFFIX := js "amazonaws.com" |}.

Definition sample_base (storage : number) : FileSystemProps :=
  {| backupId := None; kmsKey := None; removalPolicy := None;
     securityGroup := None; storageCapacityGiB := storage;
     vpc := {| vpcId := js "vpc-1" |} |}.

Definition sample_props (throughput storage : number)
  : WindowsFileSystem.WindowsFileSystemProps :=
  {| WindowsFileSystem.base := sample_base storage;
     WindowsFileSystem.windowsConfiguration :=
       {| WindowsFileSystem.deploymentType := SINGLE_AZ_1;
          WindowsFileSystem.activeDirectoryId := None;
          WindowsFileSystem.aliases := None;
          WindowsFileSystem.auditLogConfiguration := None;
          WindowsFileSystem.automaticBackupRetentionDays := None;
          WindowsFileSystem.copyTagsToBackups := None;
          WindowsFileSystem.dailyAutomaticBackupStartTime := None;
          WindowsFileSystem.preferredSubnetId := None;
          WindowsFileSystem.selfManagedActiveDirectoryConfiguration := None;
          WindowsFileSystem.storageType := Some SSD;
          WindowsFileSystem.throughputCapacity := throughput;
          WindowsFileSystem.weeklyMaintenanceStartTime := None |};
     WindowsFileSystem.vpcSubnet := {| subnetId := js "subnet-1" |} |}.

Definition sample_props_ts (throughput storage : number)
  : WindowsFileSystemTs.WindowsFileSystemProps :=
  {| WindowsFileSystemTs.base := sample_base storage;
     WindowsFileSystemTs.windowsConfiguration :=
       {| WindowsFileSystemTs.deploymentType := SINGLE_AZ_1;
          WindowsFileSystemTs.storageType := SSD;
          WindowsFileSystemTs.throughputCapacity := throughput |};
     WindowsFileSystemTs.vpcSubnet := {| subnetId := js "subnet-1" |} |}.

Definition empty_world (Tree : Type) : World Tree :=
  {| constructs := []; allocatedSecurityGroups := [];
     ingressRules := []; cfnFileSystems := [] |}.

(** ** Further vocabulary *)

(** A lower-case hexadecimal digit, [0-9] or [a-f]. *)
Definition is_lower_hex (c : N) : bool :=
  ((48 <=? c)%N && (c <=? 57)%N) || ((97 <=? c)%N && (c <=? 102)%N).

(** A free-text field of at most [bound] characters without separators. *)
Definition free_text (bound : nat) (s : jsstring) : Prop :=
  (1 <= List.length s <= bound)%nat /\ Forall (fun c => ~ In c separators) s.

(** The line terminators: line feed, carriage return, line separator and
    paragraph separator. *)
Definition terminators : list N := [10; 13; 8232; 8233]%N.

(** Every check of the list returned. *)
Definition all_accept (checks : list (result unit)) : Prop :=
  Forall (fun r => r = Ok tt) checks.

(** The ingress rule that lets a group reach itself on the default ports. *)
Definition self_ingress (group : ISecurityGroup) : IngressRule :=
  {| rule_group := group; rule_peer := group; rule_port := tcpRange 988 1023 |}.

(** A sample input with a daily backup start time. *)
Definition sample_props_with_backup (start : BackupStartTime.BackupStartTime)
  : WindowsFileSystem.WindowsFileSystemProps :=
  {| WindowsFileSystem.base := sample_base (int 1200);
     WindowsFileSystem.windowsConfiguration :=
       {| WindowsFileSystem.deploymentType := MULTI_AZ_1;
          WindowsFileSystem.activeDirectoryId := Some (js "d-0123456789");
          WindowsFileSystem.aliases := Some [js "files.corp.example.com"];
          WindowsFileSystem.auditLogConfiguration := None;
          WindowsFileSystem.automaticBackupRetentionDays := Some (int 7);
          WindowsFileSystem.copyTagsToBackups := Some true;
          WindowsFileSystem.dailyAutomaticBackupStartTime := Some start;
          WindowsFileSystem.preferredSubnetId := Some (js "subnet-1");
          WindowsFileSystem.selfManagedActiveDirectoryConfiguration := None;
          WindowsFileSystem.storageType := Some HDD;
          WindowsFileSystem.throughputCapacity := int 64;
          WindowsFileSystem.weeklyMaintenanceStartTime := None |};
     WindowsFileSystem.vpcSubnet := {| subnetId := js "subnet-1" |} |}.

(** What the validators log2r of [validateProps] leave true of a configuration
    that reaches [CfnFileSystem]. *)
Definition validated (log2r : Q -> bool)
    (c : WindowsFileSystem.AssembledWindowsConfiguration) : Prop :=
  throughput_accepted log2r (WindowsFileSystem.asm_throughputCapacity c)
  /\ (forall s, WindowsFileSystem.asm_activeDirectoryId c = Some s ->
        s = [] \/ exists digits, s = (js "d-" ++ digits)%list
                                 /\ List.length digits = 10%nat
                                 /\ forallb is_lower_hex digits = true)
  /\ (forall l, WindowsFileSystem.asm_aliases c = Some l ->
        (List.length l <= 50)%nat)
  /\ (WindowsFileSystem.asm_deploymentType c = MULTI_AZ_1 ->
      exists subnet, WindowsFileSystem.asm_preferredSubnetId c = Some subnet)
  /\ (forall ad,
        WindowsFileSystem.asm_selfManagedActiveDirectoryConfiguration c = Some ad ->
        (forall l, dnsIps ad = Some l -> (List.length l <= 3)%nat)
        /\ (forall s, domainName ad = Some s -> s = [] \/ free_text 255 s)
        /\ (forall s, fileSystemAdministratorsGroup ad = Some s ->
              s = [] \/ free_text 256 s)
        /\ (forall s, organizationalUnitDistinguishedName ad = Some s ->
              s = [] \/ free_text 2000 s)
        /\ (forall s, password ad = Some s ->
              s = [] \/ ((1 <= List.length s <= 256)%nat
                         /\ Forall (fun c => ~ In c terminators) s))
        /\ (forall s, username ad = Some s -> s = [] \/ free_text 256 s))
  /\ (forall a s,
        WindowsFileSystem.asm_auditLogConfiguration c = Some a ->
        auditLogDestination a = Some s ->
        s = [] \/ lang WindowsFileSystem.regexARN s).

(* ================================================================== *)
(** * Properties *)

Unset Implicit Arguments.

(** ** Numbers *)

Lemma lt_Finite (x y : Q) : lt (Finite x) (Finite y) = true <-> (x < y)%Q.
Proof.
  simpl. rewrite negb_true_iff. split; intro H.
  - apply Qnot_le_lt. intro Hle. apply Qle_bool_iff in Hle. congruence.
  - destruct (Qle_bool y x) eqn:E; [|reflexivity].
    apply Qle_bool_iff in E. exfalso. exact (Qlt_not_le _ _ H E).
Qed.

Lemma lt_Finite_false (x y : Q) : lt (Finite x) (Finite y) = false <-> (y <= x)%Q.
Proof.
  simpl. rewrite negb_false_iff. apply Qle_bool_iff.
Qed.

(** An integer is already in lowest terms. *)
Lemma Qred_inject_Z (z : Z) : Qred (inject_Z z) = inject_Z z.
Proof.
  unfold Qred, inject_Z.
  pose proof (Z.ggcd_gcd z 1) as Hg.
  pose proof (Z.ggcd_correct_divisors z 1) as Hd.
  destruct (Z.ggcd z 1) as [g [a b]]. simpl in Hg, Hd.
  rewrite Z.gcd_1_r in Hg. subst g. destruct Hd as [Ha Hb].
  assert (a = z) by lia. assert (b = 1%Z) by lia. subst a b. reflexivity.
Qed.

Lemma isInteger_int (z : Z) : Number_isInteger (int z) = true.
Proof.
  unfold Number_isInteger, int, inject_Z. simpl.
  rewrite Z.mod_1_r. reflexivity.
Qed.

Lemma Qfloor_int_inject (z : Z) : Qfloor_int (inject_Z z) = z.
Proof. unfold Qfloor_int, inject_Z. simpl. apply Z.div_1_r. Qed.

(** An integral finite value is the integer [Qfloor_int] gives. *)
Lemma isInteger_Finite (q : Q) :
  Number_isInteger (Finite q) = true <-> q == inject_Z (Qfloor_int q).
Proof.
  unfold Number_isInteger, Qfloor_int, Qeq, inject_Z. simpl.
  destruct q as [n d]. simpl. rewrite Z.eqb_eq, Z.mul_1_r.
  pose proof (Z.div_mod n (Zpos d) ltac:(lia)) as Hdm.
  split; intro H; lia.
Qed.

Lemma is_pow2_spec (z : Z) :
  is_pow2 z = true <-> exists k, (0 <= k)%Z /\ z = (2 ^ k)%Z.
Proof.
  unfold is_pow2. rewrite andb_true_iff, Z.ltb_lt, Z.eqb_eq. split.
  - intros [Hpos Heq]. exists (Z.log2 z). split; [apply Z.log2_nonneg | lia].
  - intros [k [Hk ->]]. split.
    + apply Z.pow_pos_nonneg; lia.
    + rewrite Z.log2_pow2 by assumption. reflexivity.
Qed.

Lemma Qeq_inject_floor (q : Q) (z : Z) : q == inject_Z z -> Qfloor_int q = z.
Proof.
  unfold Qeq, inject_Z, Qfloor_int. simpl. rewrite Z.mul_1_r. intros ->.
  apply Z.div_mul. discriminate.
Qed.


Lemma Qfloor_int_le (q : Q) (b : Z) :
  (q <= inject_Z b)%Q -> (Qfloor_int q <= b)%Z.
Proof.
  unfold Qle, Qfloor_int, inject_Z. simpl. intro H.
  apply Z.div_le_upper_bound; lia.
Qed.

(** What the test is on the values the validators reach, those from 8 to
    4096: a power of two on the integers, the runtime's answer on the
    fractions. *)
Lemma log2_test_in_range (log2r : Q -> bool) (q : Q) :
  (inject_Z 8 <= q)%Q -> (q <= inject_Z 4096)%Q ->
  Math_log2_mod1_is_0 log2r (Finite q)
  = if Number_isInteger (Finite q) then is_pow2 (Qfloor_int q) else log2r q.
Proof.
  intros Hlo Hhi. unfold Math_log2_mod1_is_0.
  destruct (Qle_bool q 0) eqn:E0.
  - apply Qle_bool_iff in E0.
    pose proof (Qle_trans _ _ _ Hlo E0) as Habs.
    unfold Qle in Habs. simpl in Habs. lia.
  - assert (Hfl : (Qfloor_int q <=? 4096)%Z = true)
      by (apply Z.leb_le, Qfloor_int_le; assumption).
    rewrite Hfl, andb_true_r. reflexivity.
Qed.

(** An integer is a power of two, as the specification has it, when the
    integer it stands for is one. *)
Lemma is_pow2_floor (q : Q) :
  Number_isInteger (Finite q) = true ->
  (is_pow2 (Qfloor_int q) = true
   <-> exists k, (0 <= k)%Z /\ q == inject_Z (2 ^ k)).
Proof.
  intro Hint. apply isInteger_Finite in Hint. rewrite is_pow2_spec. split.
  - intros [k [Hk Hz]]. exists k. split; [assumption|].
    rewrite Hint, Hz. reflexivity.
  - intros [k [Hk Heq]]. exists k. split; [assumption|].
    apply Qeq_inject_floor. assumption.
Qed.

(** ** Throughput capacity *)

Lemma throughput_rejected_false (log2r : Q -> bool) (v : number) :
  throughput_rejected log2r v = false <-> throughput_accepted log2r v.
Proof.
  unfold throughput_rejected, throughput_accepted, gt, int.
  rewrite !orb_false_iff, negb_false_iff.
  split.
  - intros [[Hlo Hhi] Hlog]. destruct v as [q| | |]; try discriminate.
    apply lt_Finite_false in Hlo. apply lt_Finite_false in Hhi.
    exists q. split; [reflexivity|]. split; [assumption|]. split; [assumption|].
    rewrite (log2_test_in_range log2r q Hlo Hhi) in Hlog.
    destruct (Number_isInteger (Finite q)) eqn:Hint.
    + left. split; [reflexivity|]. apply is_pow2_floor; assumption.
    + right. auto.
  - intros [q [-> [Hlo [Hhi Hk]]]].
    repeat split; try (apply lt_Finite_false; assumption).
    rewrite (log2_test_in_range log2r q Hlo Hhi).
    destruct Hk as [[Hint Hk] | [Hint Hr]]; rewrite Hint.
    + apply is_pow2_floor; assumption.
    + assumption.
Qed.

(** On the integers the runtime plays no part: the validators let through
    the powers of two from 8 to 4096. *)
Lemma throughput_accepted_integer (log2r : Q -> bool) (v : number) :
  Number_isInteger v = true ->
  (throughput_accepted log2r v <-> valid_throughput v).
Proof.
  intro Hint. unfold throughput_accepted, valid_throughput. split.
  - intros [q [-> [Hlo [Hhi [[_ Hk] | [Hn _]]]]]].
    + exists q. auto.
    + congruence.
  - intros [q [-> [Hlo [Hhi Hk]]]]. exists q.
    split; [reflexivity|]. split; [assumption|]. split; [assumption|].
    left. auto.
Qed.


(** The accepted values are exactly 8, 16, ..., 4096. *)
Lemma valid_throughput_exponent (v : number) :
  valid_throughput v
  <-> exists q k, v = Finite q /\ (3 <= k <= 12)%Z /\ q == inject_Z (2 ^ k).
Proof.
  split.
  - intros [q [-> [Hlo [Hhi [k [Hk Heq]]]]]].
    exists q, k. repeat split; try assumption.
    + rewrite Heq, <- Zle_Qle in Hlo.
      change 8%Z with (2 ^ 3)%Z in Hlo.
      apply Z.pow_le_mono_r_iff in Hlo; lia.
    + rewrite Heq, <- Zle_Qle in Hhi.
      change 4096%Z with (2 ^ 12)%Z in Hhi.
      apply Z.pow_le_mono_r_iff in Hhi; lia.
  - intros [q [k [-> [[Hlo Hhi] Heq]]]].
    exists q. repeat split.
    + rewrite Heq, <- Zle_Qle. change 8%Z with (2 ^ 3)%Z.
      apply Z.pow_le_mono_r; lia.
    + rewrite Heq, <- Zle_Qle. change 4096%Z with (2 ^ 12)%Z.
      apply Z.pow_le_mono_r; lia.
    + exists k. split; [lia | assumption].
Qed.

(** ** The logarithms next to a power of two

    The doubles around 4 are [4 - 2^-51] and [4 + 2^-50], those around 12
    are [12 - 2^-49] and [12 + 2^-49].  The logarithm of the double after
    16 lies above 4 by less than [2^-51], half the way to the next double,
    and the logarithm of the double before 4096 lies below 12 by less than
    [2^-50]: rounded to the nearest double, they are 4 and 12. *)

Section Logarithms.

Local Open Scope R_scope.

Lemma ln_1_plus_lt (u : R) : 0 < u -> ln (1 + u) < u.
Proof.
  intro Hu. rewrite <- (ln_exp u) at 2.
  apply ln_increasing; [lra|]. apply exp_ineq1. lra.
Qed.

Lemma ln_1_plus_pos (u : R) : 0 < u -> 0 < ln (1 + u).
Proof.
  intro Hu. rewrite <- ln_1. apply ln_increasing; lra.
Qed.

Lemma ln_2_pow (n : nat) : ln (2 ^ n) = INR n * ln 2.
Proof. apply ln_pow. lra. Qed.

Lemma after_16_R : Q2R after_16 = 2 ^ 4 * (1 + / 2 ^ 52).
Proof. unfold Q2R, after_16. simpl. lra. Qed.

Lemma before_4096_R : Q2R before_4096 = 2 ^ 12 * / (1 + / (2 ^ 53 - 1)).
Proof. unfold Q2R, before_4096. simpl. field_simplify; lra. Qed.

Lemma log2_after_16 :
  (4 < ln (Q2R after_16) / ln 2 < 4 + / 2 ^ 51).
Proof.
  pose proof ln_lt_2 as H2.
  assert (Hu : 0 < / 2 ^ 52) by (apply Rinv_0_lt_compat, pow_lt; lra).
  pose proof (ln_1_plus_lt _ Hu) as Hlt.
  pose proof (ln_1_plus_pos _ Hu) as Hpos.
  rewrite after_16_R, ln_mult; [|apply pow_lt; lra|lra].
  rewrite ln_2_pow. simpl INR.
  set (l := ln (1 + / 2 ^ 52)) in *.
  replace ((((1 + 1 + 1 + 1) * ln 2 + l) / ln 2)) with (4 + l / ln 2)
    by (field; lra).
  assert (Hq : 0 < l / ln 2) by (apply Rdiv_lt_0_compat; lra).
  assert (Hb : l / ln 2 < / 2 ^ 51).
  { apply Rmult_lt_reg_r with (ln 2); [lra|].
    unfold Rdiv. rewrite Rmult_assoc, Rinv_l, Rmult_1_r by lra.
    assert (/ 2 ^ 51 = 2 * / 2 ^ 52) by (simpl; field).
    nra. }
  lra.
Qed.

Lemma log2_before_4096 :
  (12 - / 2 ^ 50 < ln (Q2R before_4096) / ln 2 < 12).
Proof.
  pose proof ln_lt_2 as H2.
  assert (Hp : 0 < 2 ^ 53 - 1) by (simpl; lra).
  assert (Hw : 0 < / (2 ^ 53 - 1)) by (apply Rinv_0_lt_compat; assumption).
  pose proof (ln_1_plus_lt _ Hw) as Hlt.
  pose proof (ln_1_plus_pos _ Hw) as Hpos.
  rewrite before_4096_R, ln_mult;
    [|apply pow_lt; lra|apply Rinv_0_lt_compat; lra].
  rewrite ln_Rinv by lra.
  rewrite ln_2_pow. simpl INR.
  set (l := ln (1 + / (2 ^ 53 - 1))) in *.
  replace (((1 + 1 + 1 + 1 + 1 + 1 + 1 + 1 + 1 + 1 + 1 + 1) * ln 2 + - l) / ln 2)
    with (12 - l / ln 2) by (field; lra).
  assert (Hq : 0 < l / ln 2) by (apply Rdiv_lt_0_compat; lra).
  assert (Hb : l / ln 2 < / 2 ^ 50).
  { apply Rmult_lt_reg_r with (ln 2); [lra|].
    unfold Rdiv. rewrite Rmult_assoc, Rinv_l, Rmult_1_r by lra.
    assert (Hw2 : / (2 ^ 53 - 1) < / 2 ^ 52).
    { apply Rinv_lt_contravar; [|simpl; lra].
      apply Rmult_lt_0_compat; [apply pow_lt; lra | assumption]. }
    assert (/ 2 ^ 50 = 4 * / 2 ^ 52) by (simpl; field).
    nra. }
  lra.
Qed.

End Logarithms.

(** The two bounds together. *)
Lemma logarithms_nearest_to_integers :
  (4 < ln (Q2R after_16) / ln 2 < 4 + / 2 ^ 51)%R
  /\ (12 - / 2 ^ 50 < ln (Q2R before_4096) / ln 2 < 12)%R.
Proof. split; [exact log2_after_16 | exact log2_before_4096]. Qed.



(** The values of the package's test, and a few that are not numbers of
    the expected kind; none depends on the runtime. *)
Example throughput_examples :
  forall log2r,
    map (fun z => is_ok (WindowsFileSystem.validateThroughputCapacity log2r (int z)))
        [8; 64; 512; 4096; 7; 9; 4095; 4097; 0; -8; 8192]%Z
    = [true; true; true; true; false; false; false; false; false; false; false]
    /\ map (fun v => is_ok (WindowsFileSystem.validateThroughputCapacity log2r v))
         [NaN; PosInfinity; NegInfinity; Finite (1 # 2); Finite (8193 # 2)]
       = [false; false; false; false; false].
Proof. intro log2r. split; reflexivity. Qed.

(** ** Time-of-day value objects *)

Lemma out_of_range_false (lo hi : Z) (x : number) :
  out_of_range lo hi x = false <-> integer_between lo hi x.
Proof.
  unfold out_of_range, integer_between, gt, int.
  rewrite !orb_false_iff, negb_false_iff. split.
  - intros [[Hint Hlo] Hhi]. destruct x as [q| | |]; try discriminate.
    apply isInteger_Finite in Hint.
    apply lt_Finite_false in Hlo. apply lt_Finite_false in Hhi.
    exists q, (Qfloor_int q). split; [reflexivity|]. split; [assumption|].
    rewrite Hint in Hlo, Hhi. rewrite <- Zle_Qle in Hlo, Hhi. lia.
  - intros [q [z [-> [Heq [Hlo Hhi]]]]].
    repeat split.
    + apply isInteger_Finite. rewrite Heq at 1.
      assert (Hz : Qfloor_int q = z).
      { unfold Qeq, inject_Z in Heq. unfold Qfloor_int. simpl in Heq.
        rewrite Z.mul_1_r in Heq. rewrite Heq. apply Z.div_mul. discriminate. }
      rewrite Hz. reflexivity.
    + apply lt_Finite_false. rewrite Heq, <- Zle_Qle. assumption.
    + apply lt_Finite_false. rewrite Heq, <- Zle_Qle. assumption.
Qed.

Lemma integer_between_int (lo hi z : Z) :
  integer_between lo hi (int z) <-> (lo <= z <= hi)%Z.
Proof.
  unfold integer_between, int. split.
  - intros [q [z' [Hq [Heq Hr]]]]. injection Hq as Hq. subst q.
    assert (Hz : z = z') by (apply inject_Z_injective; exact Heq).
    subst z'. exact Hr.
  - intro Hr. exists (inject_Z z), z. repeat split; try lia; reflexivity.
Qed.

(** The validator shared by the time-of-day classes: the hour is checked
    first, the minute only once the hour is accepted. *)
Lemma validate_cases (hour minute : number) :
  BackupStartTime.validate hour minute
  = if out_of_range 0 24 hour
    then Throw "Maintenance time hour must be an integer between 0 and 24"
    else if out_of_range 0 59 minute
         then Throw "Maintenance time minute must be an integer between 0 and 59"
         else Ok tt.
Proof.
  unfold BackupStartTime.validate. fold (out_of_range 0 24 hour).
  fold (out_of_range 0 59 minute).
  destruct (out_of_range 0 24 hour); [reflexivity|]. simpl.
  destruct (out_of_range 0 59 minute); reflexivity.
Qed.

Lemma validate_int (h m : Z) :
  (0 <= h <= 24)%Z -> (0 <= m <= 59)%Z ->
  BackupStartTime.validate (int h) (int m) = Ok tt.
Proof.
  intros Hh Hm. rewrite validate_cases.
  assert (E1 : out_of_range 0 24 (int h) = false)
    by (apply out_of_range_false, integer_between_int; assumption).
  assert (E2 : out_of_range 0 59 (int m) = false)
    by (apply out_of_range_false, integer_between_int; assumption).
  rewrite E1, E2. reflexivity.
Qed.

(** On the integers a time of day is made of, padding yields exactly two
    digits. *)
Lemma getTwoDigitString_nat (render : Q -> string) (n : nat) :
  (n < 60)%nat ->
  BackupStartTime.getTwoDigitString render (int (Z.of_nat n))
  = two_digits (Z.of_nat n).
Proof.
  intro Hn.
  do 60 (destruct n as [|n]; [reflexivity|]).
  exfalso. lia.
Qed.

Lemma getTwoDigitString_two_digits (render : Q -> string) (z : Z) :
  (0 <= z <= 59)%Z ->
  BackupStartTime.getTwoDigitString render (int z) = two_digits z.
Proof.
  intro Hz. rewrite <- (Z2Nat.id z) by lia.
  apply getTwoDigitString_nat. lia.
Qed.

(** C5. For every integral hour [h] in [[0,24]] and minute [m] in [[0,59]]
    the backup start time is constructed, and its [toTimestamp()] is the
    fixed-width string of the two zero-padded numbers, [HH:MM]. *)
Theorem BackupStartTime_toTimestamp_HH_MM
    (render : Q -> string) (h m : Z) :
  (0 <= h <= 24)%Z -> (0 <= m <= 59)%Z ->
  exists t,
    BackupStartTime.constructor render
      {| BackupStartTime.hour := int h; BackupStartTime.minute := int m |}
    = Ok t
    /\ BackupStartTime.toTimestamp t = two_digits h ++ ":" ++ two_digits m
    /\ String.length (BackupStartTime.toTimestamp t) = 5%nat.
Proof.
  intros Hh Hm. unfold BackupStartTime.constructor. simpl.
  rewrite validate_int by assumption. simpl.
  eexists. split; [reflexivity|].
  unfold BackupStartTime.toTimestamp. simpl.
  rewrite !getTwoDigitString_two_digits by lia.
  split; reflexivity.
Qed.

(** The two instances of the specification: 5:00 and 23:59. *)
Lemma BackupStartTime_toTimestamp_examples :
  (exists t,
     BackupStartTime.constructor no_render
       {| BackupStartTime.hour := int 5; BackupStartTime.minute := int 0 |}
     = Ok t
     /\ BackupStartTime.toTimestamp t = "05:00"
     /\ String.length (BackupStartTime.toTimestamp t) = 5%nat)
  /\ (exists t,
        BackupStartTime.constructor no_render
          {| BackupStartTime.hour := int 23; BackupStartTime.minute := int 59 |}
        = Ok t
        /\ BackupStartTime.toTimestamp t = "23:59"
        /\ String.length (BackupStartTime.toTimestamp t) = 5%nat).
Proof.
  split.
  - apply (BackupStartTime_toTimestamp_HH_MM no_render 5 0); lia.
  - apply (BackupStartTime_toTimestamp_HH_MM no_render 23 59); lia.
Defined.

(** The instances the specification spells out, with the explicit case of a
    fraction and of values that are no finite number. *)
Example BackupStartTime_constructor_examples :
  map (fun h => BackupStartTime.constructor no_render
                  {| BackupStartTime.hour := h; BackupStartTime.minute := int 0 |})
      [int (-1); int 25; Finite (12 # 10); NaN; PosInfinity; NegInfinity]
  = repeat (Throw "Maintenance time hour must be an integer between 0 and 24") 6
  /\ map (fun m => BackupStartTime.constructor no_render
                     {| BackupStartTime.hour := int 0; BackupStartTime.minute := m |})
       [int (-1); int 60; Finite (12 # 10); NaN]
     = repeat (Throw "Maintenance time minute must be an integer between 0 and 59") 4
  /\ is_ok (BackupStartTime.constructor no_render
              {| BackupStartTime.hour := int 24; BackupStartTime.minute := int 59 |})
     = true.
Proof. repeat split. Qed.

(** C6, as the sources have it.  Construction fails with the violation
    naming "hour" whenever the hour is not an integer of [[0,24]]; it fails
    with the violation naming "minute" whenever the hour is such an integer
    and the minute is not an integer of [[0,59]]; it succeeds for every
    integral hour of [[0,24]], 24 included, with an integral minute of
    [[0,59]]. *)
Theorem BackupStartTime_constructor_range_violations
    (render : Q -> string) (props : BackupStartTime.BackupStartTimeProps) :
  (~ integer_between 0 24 (BackupStartTime.hour props) ->
   BackupStartTime.constructor render props
   = Throw "Maintenance time hour must be an integer between 0 and 24")
  /\ (integer_between 0 24 (BackupStartTime.hour props) ->
      ~ integer_between 0 59 (BackupStartTime.minute props) ->
      BackupStartTime.constructor render props
      = Throw "Maintenance time minute must be an integer between 0 and 59")
  /\ (integer_between 0 24 (BackupStartTime.hour props) ->
      integer_between 0 59 (BackupStartTime.minute props) ->
      exists t, BackupStartTime.constructor render props = Ok t)
  /\ contains "hour" "Maintenance time hour must be an integer between 0 and 24"
     = true
  /\ contains "minute" "Maintenance time minute must be an integer between 0 and 59"
     = true.
Proof.
  unfold BackupStartTime.constructor. rewrite validate_cases.
  pose proof (out_of_range_false 0 24 (BackupStartTime.hour props)) as Hh.
  pose proof (out_of_range_false 0 59 (BackupStartTime.minute props)) as Hm.
  destruct (out_of_range 0 24 (BackupStartTime.hour props));
    destruct (out_of_range 0 59 (BackupStartTime.minute props)); simpl;
    repeat split; intros;
    try reflexivity;
    try (exfalso; match goal with
                  | H : ~ _ |- _ => apply H; tauto
                  | H : integer_between 0 24 _ |- _ =>
                      apply Hh in H; discriminate
                  | H : integer_between 0 59 _ |- _ =>
                      apply Hm in H; discriminate
                  end);
    eexists; reflexivity.
Qed.

(** C6, as stated, at hour 25 and minute 60: the minute is outside
    [[0,59]], and the violation raised is the one of the hour, which does not
    name the minute. *)
Lemma minute_violation_hidden_by_hour_violation :
  out_of_range 0 59 (int 60) = true
  /\ BackupStartTime.constructor no_render
       {| BackupStartTime.hour := int 25; BackupStartTime.minute := int 60 |}
     = Throw "Maintenance time hour must be an integer between 0 and 24"
  /\ contains "minute" "Maintenance time hour must be an integer between 0 and 24"
     = false.
Proof. repeat split. Qed.

(** C4. For every weekday [d], integral hour [h] in [[0,24]] and minute [m]
    in [[0,59]] the maintenance time is constructed, and its timestamp is
    [D:HH:MM]: the unpadded index of the weekday (Monday 1 to Sunday 7) and
    the two zero-padded numbers. *)
Theorem MaintenanceTime_toTimestamp_D_HH_MM
    (render : Q -> string) (d : MaintenanceTime.Weekday) (h m : Z) :
  (0 <= h <= 24)%Z -> (0 <= m <= 59)%Z ->
  exists t,
    MaintenanceTime.constructor render
      {| MaintenanceTime.day := d;
         MaintenanceTime.hour := int h;
         MaintenanceTime.minute := int m |}
    = Ok t
    /\ MaintenanceTime.toTimestamp t
       = String (digit (MaintenanceTime.weekday_index d))
           (":" ++ two_digits h ++ ":" ++ two_digits m)
    /\ String.length (MaintenanceTime.toTimestamp t) = 7%nat.
Proof.
  intros Hh Hm. unfold MaintenanceTime.constructor. simpl.
  rewrite validate_int by assumption. simpl.
  eexists. split; [reflexivity|].
  unfold MaintenanceTime.toTimestamp. simpl.
  rewrite !getTwoDigitString_two_digits by lia.
  destruct d; split; reflexivity.
Qed.

(** The three instances of the specification. *)
Lemma MaintenanceTime_toTimestamp_examples :
  (exists t,
     MaintenanceTime.constructor no_render
       {| MaintenanceTime.day := MaintenanceTime.SUNDAY;
          MaintenanceTime.hour := int 0;
          MaintenanceTime.minute := int 0 |}
     = Ok t
     /\ MaintenanceTime.toTimestamp t = "7:00:00"
     /\ String.length (MaintenanceTime.toTimestamp t) = 7%nat)
  /\ (exists t,
        MaintenanceTime.constructor no_render
          {| MaintenanceTime.day := MaintenanceTime.SATURDAY;
             MaintenanceTime.hour := int 0;
             MaintenanceTime.minute := int 0 |}
        = Ok t
        /\ MaintenanceTime.toTimestamp t = "6:00:00"
        /\ String.length (MaintenanceTime.toTimestamp t) = 7%nat)
  /\ (exists t,
        MaintenanceTime.constructor no_render
          {| MaintenanceTime.day := MaintenanceTime.SUNDAY;
             MaintenanceTime.hour := int 24;
             MaintenanceTime.minute := int 0 |}
        = Ok t
        /\ MaintenanceTime.toTimestamp t = "7:24:00"
        /\ String.length (MaintenanceTime.toTimestamp t) = 7%nat).
Proof.
  repeat apply conj.
  - apply (MaintenanceTime_toTimestamp_D_HH_MM no_render MaintenanceTime.SUNDAY 0 0); lia.
  - apply (MaintenanceTime_toTimestamp_D_HH_MM no_render MaintenanceTime.SATURDAY 0 0); lia.
  - apply (MaintenanceTime_toTimestamp_D_HH_MM no_render MaintenanceTime.SUNDAY 24 0); lia.
Defined.

(** ** The matcher finds exactly the words of the pattern *)

Lemma repeat_matcher_spec
    (m : jsstring -> (jsstring -> bool) -> bool) (L : jsstring -> Prop) :
  (forall s k, m s k = true
               <-> exists s1 s2, s = (s1 ++ s2)%list /\ L s1 /\ k s2 = true) ->
  forall hi lo s k,
    repeat_matcher m lo hi s k = true
    <-> exists n s1 s2, (lo <= n <= hi)%nat /\ s = (s1 ++ s2)%list
                        /\ power L n s1 /\ k s2 = true.
Proof.
  intros Hm. induction hi as [|hi IH]; intros lo s k; simpl.
  - destruct lo as [|lo].
    + split.
      * intro Hk. exists O, [], s. repeat split; auto.
      * intros [n [s1 [s2 [Hn [Hs [Hp Hk]]]]]].
        assert (n = O) by lia. subst n. simpl in Hp. subst s1. simpl in Hs.
        subst s2. assumption.
    + split; [discriminate|].
      intros [n [_ [_ [Hn _]]]]. lia.
  - rewrite orb_true_iff, Hm. split.
    + intros [[s1 [s2 [Hs [HL Hrest]]]] | Hzero].
      * apply IH in Hrest.
        destruct Hrest as [n [t1 [t2 [Hn [Ht [Hp Hk]]]]]].
        exists (S n), (s1 ++ t1)%list, t2. repeat split; try lia.
        -- subst. apply app_assoc.
        -- simpl. exists s1, t1. auto.
        -- assumption.
      * destruct lo as [|lo]; [|discriminate].
        exists O, [], s. repeat split; auto; lia.
    + intros [n [s1 [s2 [Hn [Hs [Hp Hk]]]]]].
      destruct n as [|n].
      * right. simpl in Hp. subst s1. simpl in Hs. subst s2.
        destruct lo as [|lo]; [assumption | lia].
      * left. simpl in Hp. destruct Hp as [a [b [Hab [Ha Hb]]]].
        exists a, (b ++ s2)%list. repeat split.
        -- subst. symmetry. apply app_assoc.
        -- assumption.
        -- apply IH. exists n, b, s2. repeat split; auto; lia.
Qed.

Lemma matcher_spec (r : regex) :
  forall s k,
    matcher r s k = true
    <-> exists s1 s2, s = (s1 ++ s2)%list /\ lang r s1 /\ k s2 = true.
Proof.
  induction r as [ | c | | negated ranges | a IHa b IHb | a IHa b IHb
                 | a IHa lo hi ]; intros s k; simpl.
  - split.
    + intro Hk. exists [], s. auto.
    + intros [s1 [s2 [Hs [-> Hk]]]]. simpl in Hs. subst. assumption.
  - destruct s as [|x s'].
    + split; [discriminate|].
      intros [s1 [s2 [Hs [-> _]]]]. discriminate.
    + rewrite andb_true_iff, N.eqb_eq. split.
      * intros [-> Hk]. exists [c], s'. auto.
      * intros [s1 [s2 [Hs [-> Hk]]]]. injection Hs as -> ->. auto.
  - destruct s as [|x s'].
    + split; [discriminate|].
      intros [s1 [s2 [Hs [[y [-> _]] _]]]]. discriminate.
    + rewrite andb_true_iff. split.
      * intros [Hx Hk]. exists [x], s'. repeat split; eauto.
      * intros [s1 [s2 [Hs [[y [-> Hy]] Hk]]]]. injection Hs as -> ->. auto.
  - destruct s as [|x s'].
    + split; [discriminate|].
      intros [s1 [s2 [Hs [[y [-> _]] _]]]]. discriminate.
    + rewrite andb_true_iff. split.
      * intros [Hx Hk]. exists [x], s'. repeat split; eauto.
      * intros [s1 [s2 [Hs [[y [-> Hy]] Hk]]]]. injection Hs as -> ->. auto.
  - rewrite IHa. split.
    + intros [s1 [s2 [Hs [Ha Hb]]]]. apply IHb in Hb.
      destruct Hb as [t1 [t2 [Ht [Hb Hk]]]].
      exists (s1 ++ t1)%list, t2. repeat split.
      * subst. apply app_assoc.
      * exists s1, t1. auto.
      * assumption.
    + intros [s1 [s2 [Hs [[a1 [b1 [Hab [Ha Hb]]]] Hk]]]].
      exists a1, (b1 ++ s2)%list. repeat split.
      * subst. symmetry. apply app_assoc.
      * assumption.
      * apply IHb. exists b1, s2. auto.
  - rewrite orb_true_iff, IHa, IHb. split.
    + intros [[s1 [s2 [Hs [H Hk]]]] | [s1 [s2 [Hs [H Hk]]]]];
        exists s1, s2; auto.
    + intros [s1 [s2 [Hs [[H | H] Hk]]]]; [left | right]; exists s1, s2; auto.
  - rewrite (repeat_matcher_spec (matcher a) (lang a) IHa). split.
    + intros [n [s1 [s2 [Hn [Hs [Hp Hk]]]]]]. exists s1, s2. eauto.
    + intros [s1 [s2 [Hs [[n [Hn Hp]] Hk]]]]. exists n, s1, s2. auto.
Qed.

(** An anchored pattern accepts exactly its words. *)
Lemma RegExp_test_lang (r : regex) (s : jsstring) :
  RegExp_test r s = true <-> lang r s.
Proof.
  unfold RegExp_test. rewrite matcher_spec. split.
  - intros [s1 [s2 [Hs [Hl Hk]]]]. destruct s2; [|discriminate].
    rewrite app_nil_r in Hs. subst. assumption.
  - intro Hl. exists s, []. rewrite app_nil_r. auto.
Qed.

(** Repeating a one-character pattern: the words are those of a length
    within the bounds all of whose characters are admitted. *)
Lemma power_one_char (p : N -> bool) (L : jsstring -> Prop) :
  (forall s, L s <-> exists x, s = [x] /\ p x = true) ->
  forall n s, power L n s <-> List.length s = n /\ forallb p s = true.
Proof.
  intros HL. induction n as [|n IH]; intros s; simpl.
  - split.
    + intros ->. auto.
    + intros [Hlen _]. destruct s; [reflexivity | discriminate].
  - split.
    + intros [s1 [s2 [Hs [H1 H2]]]]. apply HL in H1. destruct H1 as [x [-> Hx]].
      apply IH in H2. destruct H2 as [Hlen Hall]. subst s. simpl.
      rewrite Hx, Hall, Hlen. auto.
    + intros [Hlen Hall]. destruct s as [|x s']; [discriminate|].
      simpl in Hlen, Hall. apply andb_true_iff in Hall. destruct Hall as [Hx Hall].
      exists [x], s'. repeat split.
      * apply HL. eauto.
      * apply IH. split; [lia | assumption].
Qed.

Lemma lang_Rep_Class (negated : bool) (ranges : list (N * N)) (lo hi : nat) (s : jsstring) :
  lang (Rep (Class negated ranges) lo hi) s
  <-> (lo <= List.length s <= hi)%nat
      /\ forallb (class_matches negated ranges) s = true.
Proof.
  simpl. split.
  - intros [n [Hn Hp]].
    apply (power_one_char (class_matches negated ranges)) in Hp;
      [|intro; reflexivity].
    destruct Hp as [Hlen Hall]. split; [lia | assumption].
  - intros [Hlen Hall]. exists (List.length s). split; [assumption|].
    apply (power_one_char (class_matches negated ranges));
      [intro; reflexivity | auto].
Qed.

Lemma lang_Rep_Dot (lo hi : nat) (s : jsstring) :
  lang (Rep Dot lo hi) s
  <-> (lo <= List.length s <= hi)%nat /\ forallb dot_matches s = true.
Proof.
  simpl. split.
  - intros [n [Hn Hp]].
    apply (power_one_char dot_matches) in Hp; [|intro; reflexivity].
    destruct Hp as [Hlen Hall]. split; [lia | assumption].
  - intros [Hlen Hall]. exists (List.length s). split; [assumption|].
    apply (power_one_char dot_matches); [intro; reflexivity | auto].
Qed.

Lemma lang_Rep_Chr (c : N) (lo hi : nat) (s : jsstring) :
  lang (Rep (Chr c) lo hi) s
  <-> (lo <= List.length s <= hi)%nat /\ s = repeat c (List.length s).
Proof.
  assert (Hone : forall n t, power (lang (Chr c)) n t <-> t = repeat c n).
  { induction n as [|n IH]; intro t; simpl.
    - reflexivity.
    - split.
      + intros [s1 [s2 [-> [-> H2]]]]. apply IH in H2. subst. reflexivity.
      + intros ->. exists [c], (repeat c n). repeat split. apply IH. reflexivity. }
  simpl. split.
  - intros [n [Hn Hp]]. apply Hone in Hp. subst s.
    rewrite repeat_length. auto.
  - intros [Hlen Hs]. exists (List.length s). split; [assumption|].
    apply Hone. assumption.
Qed.

(** The words of a literal. *)
Lemma lang_lit (l : string) (s : jsstring) : lang (lit l) s <-> s = js l.
Proof.
  revert s. induction l as [|a l IH]; intro s; simpl.
  - reflexivity.
  - split.
    + intros [s1 [s2 [-> [-> H2]]]]. apply IH in H2. subst. reflexivity.
    + intros ->. exists [N_of_ascii a], (js l). repeat split. apply IH. reflexivity.
Qed.

(** ** The string validators *)

Lemma validateString_Ok (pattern : regex) (message : string) (s : jsstring) :
  WindowsFileSystem.validateString pattern message (Some s) = Ok tt
  <-> s = [] \/ lang pattern s.
Proof.
  unfold WindowsFileSystem.validateString.
  pose proof (RegExp_test_lang pattern s) as Ht.
  destruct s as [|c s']; simpl.
  - split; auto.
  - destruct (RegExp_test pattern (c :: s')); simpl.
    + split; [intros _; right; apply Ht; reflexivity | reflexivity].
    + split; [discriminate|].
      intros [Hnil | Hl]; [discriminate|]. apply Ht in Hl. discriminate.
Qed.

Lemma validateString_Throw (pattern : regex) (message : string) (s : jsstring) :
  WindowsFileSystem.validateString pattern message (Some s) = Throw message
  <-> s <> [] /\ ~ lang pattern s.
Proof.
  pose proof (validateString_Ok pattern message s) as Hok.
  unfold WindowsFileSystem.validateString in *.
  destruct (truthy s && negb (RegExp_test pattern s)).
  - split; [|reflexivity]. intros _.
    split; intro H; assert (Hc : @Throw unit message = Ok tt) by (apply Hok; auto);
      discriminate.
  - split; [discriminate|]. intros [Hne Hnl].
    destruct Hok as [Hok _]. destruct (Hok eq_refl); contradiction.
Qed.

Lemma no_separator_class (c : N) :
  class_matches true
    [(0, 0); (133, 133); (8232, 8232); (8233, 8233); (13, 13); (10, 10)]%N c
  = true
  <-> ~ In c separators.
Proof.
  unfold class_matches. rewrite xorb_true_l, negb_true_iff.
  unfold in_ranges, separators. simpl.
  rewrite !orb_false_iff, !andb_false_iff, !N.leb_nle.
  lia.
Qed.

Lemma lang_Rep_no_separator (lo hi : nat) (s : jsstring) :
  lang (Rep WindowsFileSystem.no_separator lo hi) s
  <-> (lo <= List.length s <= hi)%nat /\ Forall (fun c => ~ In c separators) s.
Proof.
  unfold WindowsFileSystem.no_separator. rewrite lang_Rep_Class.
  rewrite forallb_forall, Forall_forall.
  split; intros [Hlen Hall]; (split; [assumption|]); intros c Hc;
    apply no_separator_class, Hall, Hc.
Qed.

(** C8, as the sources have it.  The domain-name validator accepts a
    present string if and only if it is empty or has between 1 and 255
    characters, none of them NUL, NEL, a line or paragraph separator, a
    carriage return or a line feed; every other present string is rejected
    with the violation of the domain name.  An absent name is accepted. *)
Theorem validateDomainName_accepts_iff (s : jsstring) :
  (WindowsFileSystem.validateDomainName (Some s) = Ok tt
   <-> s = [] \/ valid_domain_name s)
  /\ (WindowsFileSystem.validateDomainName (Some s)
      = Throw "Value must be a valid Domain Name. It must not contain newline, carriage return, line separator or paragraph separator and must not exceed 255 characters limit."
      <-> s <> [] /\ ~ valid_domain_name s)
  /\ WindowsFileSystem.validateDomainName None = Ok tt.
Proof.
  unfold WindowsFileSystem.validateDomainName, valid_domain_name.
  rewrite validateString_Ok, validateString_Throw.
  unfold WindowsFileSystem.domainRegex.
  rewrite lang_Rep_no_separator.
  repeat split; tauto.
Qed.

(** C8, as stated, at the empty string: it is present, its length 0 is
    outside 1-255, and the validator accepts it. *)
Lemma validateDomainName_accepts_empty_string :
  WindowsFileSystem.validateDomainName (Some []) = Ok tt
  /\ List.length (@nil N) = 0%nat
  /\ ~ valid_domain_name [].
Proof.
  repeat split. intros [Hlen _]. simpl in Hlen. lia.
Qed.

Example validateDomainName_examples :
  map (fun s => is_ok (WindowsFileSystem.validateDomainName (Some s)))
      [js "corp.example.com"; js "a"; repeat 97%N 255; repeat 97%N 256;
       [99; 10; 100]%N; [8232]%N; [0]%N; [133]%N; [8233]%N; [13]%N]
  = [true; true; true; false; false; false; false; false; false; false].
Proof. vm_compute. reflexivity. Qed.

(** ** The preferred subnet *)

(** C7. The preferred-subnet validator raises its violation, which names
    the preferred subnet, if and only if the deployment type is
    [MULTI_AZ_1] and the preferred subnet id is absent; in every other
    case - another deployment type with or without the id, [MULTI_AZ_1]
    with the id - it accepts. *)
Theorem validatePreferredSubnetId_iff
    (deploymentType : WindowsDeploymentType) (preferredSubnetId : option jsstring) :
  (WindowsFileSystem.validatePreferredSubnetId deploymentType preferredSubnetId
   = Throw "Preferred Subnet ID is required when deploymentType is set to MULTI_AZ_1"
   <-> deploymentType = MULTI_AZ_1 /\ preferredSubnetId = None)
  /\ (WindowsFileSystem.validatePreferredSubnetId deploymentType preferredSubnetId
      = Ok tt
      <-> deploymentType <> MULTI_AZ_1 \/ exists id, preferredSubnetId = Some id)
  /\ contains "Preferred Subnet"
       "Preferred Subnet ID is required when deploymentType is set to MULTI_AZ_1"
     = true.
Proof.
  unfold WindowsFileSystem.validatePreferredSubnetId.
  destruct deploymentType, preferredSubnetId as [id|]; simpl;
    repeat split; intros;
    try discriminate; try reflexivity;
    repeat match goal with
           | H : _ /\ _ |- _ => destruct H
           | H : _ \/ _ |- _ => destruct H
           | H : exists _, _ |- _ => destruct H
           | H : ?x <> ?x |- _ => contradiction H; reflexivity
           end;
    try discriminate;
    try (left; discriminate);
    try (right; eexists; reflexivity).
Qed.

(** ** The destination of the audit log *)

Lemma lang_Seq (a b : regex) (s : jsstring) :
  lang (Seq a b) s
  <-> exists s1 s2, s = (s1 ++ s2)%list /\ lang a s1 /\ lang b s2.
Proof. reflexivity. Qed.

Lemma lang_Chr (c : N) (s : jsstring) : lang (Chr c) s <-> s = [c].
Proof. reflexivity. Qed.

Lemma not_char_class (c x : N) :
  class_matches true [(c, c)] x = true <-> x <> c.
Proof.
  unfold class_matches. rewrite xorb_true_l, negb_true_iff.
  unfold in_ranges. simpl.
  rewrite !orb_false_iff, !andb_false_iff, !N.leb_nle. lia.
Qed.

Lemma forallb_not_char (c : N) (s : jsstring) :
  forallb (class_matches true [(c, c)]) s = true <-> ~ In c s.
Proof.
  rewrite forallb_forall. split.
  - intros H Hin. apply H in Hin. apply not_char_class in Hin. congruence.
  - intros H x Hx. apply not_char_class. intros ->. contradiction.
Qed.

(** A string is cut at its first colon in one way only. *)
Lemma split_at_first (c : N) (a a' b b' : jsstring) :
  ~ In c a -> ~ In c a' ->
  (a ++ c :: b)%list = (a' ++ c :: b')%list -> a = a' /\ b = b'.
Proof.
  revert a'. induction a as [|x a IH]; intros [|x' a'] Ha Ha' Heq; simpl in *.
  - injection Heq as ->. auto.
  - injection Heq as <- _. exfalso. apply Ha'. auto.
  - injection Heq as -> _. exfalso. apply Ha. auto.
  - injection Heq as -> Heq.
    destruct (IH a') as [-> ->]; auto.
Qed.

(** Cut the word of a sequence [H : lang (Seq a b) s] into the word [x] of
    [a], kept as [Hx], and the rest, which [H] goes on with. *)
Ltac cut_seq H x Hx :=
  let t := fresh "t" in
  apply lang_Seq in H; destruct H as [x [t [-> [Hx H]]]].

(** The words of the pattern the validator builds: the account segment is
    empty or twelve letters [d]. *)
Lemma lang_regexARN (s : jsstring) :
  lang WindowsFileSystem.regexARN s
  <-> exists partition service region account c rest,
        s = arn partition service region account (c :: rest)
        /\ (1 <= List.length partition <= 63)%nat /\ ~ In colon partition
        /\ (List.length service <= 63)%nat /\ ~ In colon service
        /\ (List.length region <= 63)%nat /\ ~ In colon region
        /\ (account = [] \/ account = repeat 100%N 12)
        /\ c <> 47%N
        /\ (List.length rest <= 1023)%nat /\ forallb dot_matches rest = true.
Proof.
  unfold WindowsFileSystem.regexARN, arn.
  change (WindowsFileSystem.code ":") with colon.
  change (WindowsFileSystem.code "/") with 47%N.
  change (WindowsFileSystem.code "d") with 100%N.
  split.
  - intro H.
    cut_seq H s0 H0. apply lang_lit in H0. subst s0.
    cut_seq H p Hp. apply lang_Rep_Class in Hp. destruct Hp as [Hpl Hpc].
    cut_seq H sep1 Hsep1. simpl in Hsep1. subst sep1.
    cut_seq H sv Hsv. apply lang_Rep_Class in Hsv. destruct Hsv as [Hsvl Hsvc].
    cut_seq H sep2 Hsep2. simpl in Hsep2. subst sep2.
    cut_seq H rg Hrg. apply lang_Rep_Class in Hrg. destruct Hrg as [Hrgl Hrgc].
    cut_seq H sep3 Hsep3. simpl in Hsep3. subst sep3.
    cut_seq H acct Hacct.
    cut_seq H sep4 Hsep4. simpl in Hsep4. subst sep4.
    cut_seq H r1 Hr1. rename H into Hrest.
    match type of Hrest with lang _ ?t => rename t into rest end.
    destruct Hr1 as [c [-> Hc]]. apply not_char_class in Hc.
    apply lang_Rep_Dot in Hrest. destruct Hrest as [Hrl Hrd].
    exists p, sv, rg, acct, c, rest.
    apply forallb_not_char in Hpc, Hsvc, Hrgc.
    repeat split; try assumption; try lia.
    destruct Hacct as [-> | Hd]; [left; reflexivity | right].
    apply lang_Rep_Chr in Hd. destruct Hd as [Hl Hd].
    assert (Hlen : List.length acct = 12%nat) by lia.
    rewrite Hlen in Hd. exact Hd.
  - intros [p [sv [rg [acct [c [rest
      [-> [Hpl [Hpc [Hsvl [Hsvc [Hrgl [Hrgc [Hacct [Hc [Hrl Hrd]]]]]]]]]]]]]]]].
    apply forallb_not_char in Hpc, Hsvc, Hrgc.
    apply lang_Seq. exists (js "arn:"). eexists. split; [reflexivity|].
    split; [apply lang_lit; reflexivity|].
    apply lang_Seq. exists p. eexists. split; [reflexivity|].
    split; [apply lang_Rep_Class; auto|].
    apply lang_Seq. exists [colon]. eexists. split; [reflexivity|].
    split; [reflexivity|].
    apply lang_Seq. exists sv. eexists. split; [reflexivity|].
    split; [apply lang_Rep_Class; split; [lia | assumption]|].
    apply lang_Seq. exists [colon]. eexists. split; [reflexivity|].
    split; [reflexivity|].
    apply lang_Seq. exists rg. eexists. split; [reflexivity|].
    split; [apply lang_Rep_Class; split; [lia | assumption]|].
    apply lang_Seq. exists [colon]. eexists. split; [reflexivity|].
    split; [reflexivity|].
    apply lang_Seq. exists acct. eexists. split; [reflexivity|].
    split.
    { destruct Hacct as [-> | ->]; [left; reflexivity | right].
      apply lang_Rep_Chr. rewrite repeat_length. auto. }
    apply lang_Seq. exists [colon]. eexists. split; [reflexivity|].
    split; [reflexivity|].
    apply lang_Seq. exists [c], rest. split; [reflexivity|].
    split.
    + exists c. split; [reflexivity | apply not_char_class; assumption].
    + apply lang_Rep_Dot. split; [lia | assumption].
Qed.

(** X14. The strings the validator of the audit log destination lets
    through: the empty string, and the strings
    [arn:partition:service:region:account:resource] whose partition has 1
    to 63 characters, whose service and region have at most 63, none of
    them a colon, whose account is empty or twelve letters [d], and whose
    resource has 1 to 1024 characters, the first not [/], the others no line
    terminators. *)
Lemma validateARN_accepts_iff (s : jsstring) :
  WindowsFileSystem.validateARN (Some s) = Ok tt
  <-> s = []
      \/ exists partition service region account c rest,
           s = arn partition service region account (c :: rest)
           /\ (1 <= List.length partition <= 63)%nat /\ ~ In colon partition
           /\ (List.length service <= 63)%nat /\ ~ In colon service
           /\ (List.length region <= 63)%nat /\ ~ In colon region
           /\ (account = [] \/ account = repeat 100%N 12)
           /\ c <> 47%N
           /\ (List.length rest <= 1023)%nat /\ forallb dot_matches rest = true.
Proof.
  unfold WindowsFileSystem.validateARN.
  rewrite validateString_Ok, lang_regexARN. reflexivity.
Qed.

Lemma digits_no_colon (s : jsstring) :
  forallb is_digit s = true -> ~ In colon s.
Proof.
  intros H Hin. rewrite forallb_forall in H. apply H in Hin. discriminate.
Qed.

(** C2, the defect.  Whatever the partition, service, region and resource
    are, an ARN whose account segment is a 12-digit number is rejected by
    the validator of the audit log destination. *)
Theorem validateARN_rejects_12_digit_account
    (partition service region account resource : jsstring) :
  ~ In colon partition -> ~ In colon service -> ~ In colon region ->
  List.length account = 12%nat -> forallb is_digit account = true ->
  WindowsFileSystem.validateARN
    (Some (arn partition service region account resource))
  = Throw "Audit Log Destination must be a valid ARN".
Proof.
  intros Hp Hsv Hrg Hlen Hdig.
  unfold WindowsFileSystem.validateARN. apply validateString_Throw. split.
  - unfold arn. discriminate.
  - intro Hl. apply lang_regexARN in Hl.
    destruct Hl as [p' [sv' [rg' [acct' [c [rest
      [Heq [_ [Hp' [_ [Hsv' [_ [Hrg' [Hacct' _]]]]]]]]]]]]]].
    unfold arn in Heq. apply app_inv_head in Heq. simpl in Heq.
    apply split_at_first in Heq; try assumption. destruct Heq as [_ Heq].
    apply split_at_first in Heq; try assumption. destruct Heq as [_ Heq].
    apply split_at_first in Heq; try assumption. destruct Heq as [_ Heq].
    apply split_at_first in Heq.
    + destruct Heq as [Heq _]. subst acct'.
      destruct Hacct' as [-> | ->]; discriminate.
    + apply digits_no_colon. assumption.
    + destruct Hacct' as [-> | ->]; simpl; unfold colon; intuition discriminate.
Qed.

(** The failing input: the destination of an audit log in CloudWatch
    Logs, with the account it belongs to. *)
Lemma validateARN_rejects_log_group_arn :
  WindowsFileSystem.validateARN
    (Some (arn (js "aws") (js "logs") (js "us-east-1") (js "123456789012")
               (js "log-group:/aws/fsx/windows")))
  = Throw "Audit Log Destination must be a valid ARN".
Proof.
  apply (validateARN_rejects_12_digit_account
           (js "aws") (js "logs") (js "us-east-1") (js "123456789012")
           (js "log-group:/aws/fsx/windows")).
  - vm_compute. intuition discriminate.
  - vm_compute. intuition discriminate.
  - vm_compute. intuition discriminate.
  - reflexivity.
  - reflexivity.
Defined.

(** What the validator accepts and refuses, on the instances of the
    specification: an ARN with an empty account; one whose account is a
    12-digit number; one whose account is twelve letters [d]; a string
    without the [arn:] prefix; a resource starting with [/]; the empty
    string. *)
Example validateARN_examples :
  map (fun s => is_ok (WindowsFileSystem.validateARN (Some (js s))))
      ["arn:aws:s3:::audit-bucket";
       "arn:aws:logs:us-east-1:123456789012:log-group:/aws/fsx/windows";
       "arn:aws:logs:us-east-1:dddddddddddd:log-group:/aws/fsx/windows";
       "aws:logs:us-east-1:123456789012:log-group:/aws/fsx/windows";
       "arn:aws:s3:::/audit-bucket";
       ""]
  = [true; false; true; false; false; true]
  /\ js "arn:aws:logs:us-east-1:123456789012:log-group:/aws/fsx/windows"
     = arn (js "aws") (js "logs") (js "us-east-1") (js "123456789012")
           (js "log-group:/aws/fsx/windows").
Proof. split; vm_compute; reflexivity. Qed.

(** ** Validation before assembly *)

Lemma bind_first_failure (r : result unit) (rest : list (result unit)) :
  (r ;; first_failure rest) = first_failure (r :: rest).
Proof. destruct r; reflexivity. Qed.

(** [validateProps] stops at the first of its validators that throws. *)
Lemma validateProps_first_failure (log2r : Q -> bool)
    (props : WindowsFileSystem.WindowsFileSystemProps) :
  WindowsFileSystem.validateProps log2r props = first_failure (validators log2r props).
Proof.
  unfold WindowsFileSystem.validateProps, validators.
  repeat rewrite <- bind_first_failure. simpl.
  repeat match goal with
         | |- bind ?r _ = bind ?r _ => destruct r; simpl; [|reflexivity]
         end.
  match goal with |- ?r = _ => destruct r as [[]|]; reflexivity end.
Qed.

Lemma validateProps_ts_first_failure (log2r : Q -> bool)
    (props : WindowsFileSystemTs.WindowsFileSystemProps) :
  WindowsFileSystemTs.validateProps log2r props = first_failure (validators_ts log2r props).
Proof.
  unfold WindowsFileSystemTs.validateProps, validators_ts. simpl.
  destruct (WindowsFileSystemTs.validateThroughputCapacity log2r _); simpl; [|reflexivity].
  match goal with |- ?r = _ => destruct r as [[]|]; reflexivity end.
Qed.

Lemma first_failure_Throw (checks : list (result unit)) :
  (exists m, In (Throw m) checks)
  <-> exists message, first_failure checks = Throw message.
Proof.
  induction checks as [|[u|m] rest IH]; simpl.
  - split; intros [m H]; [contradiction | discriminate].
  - rewrite <- IH. split.
    + intros [m [H | H]]; [discriminate | eauto].
    + intros [m H]. eauto.
  - split; eauto.
Qed.

Lemma first_failure_In (checks : list (result unit)) (message : string) :
  first_failure checks = Throw message -> In (Throw message) checks.
Proof.
  induction checks as [|[u|m] rest IH]; simpl; intro H.
  - discriminate.
  - right. auto.
  - left. assumption.
Qed.

(** When [validateProps] throws, the constructor throws the same error and
    has only attached the construct itself to its scope. *)
Lemma constructor_Throw (log2r : Q -> bool) (env : Env) (scope : Construct) (id : string)
    (props : WindowsFileSystem.WindowsFileSystemProps)
    (w : World WindowsFileSystem.CfnFileSystemProps) (message : string) :
  WindowsFileSystem.validateProps log2r props = Throw message ->
  WindowsFileSystem.constructor log2r env scope id props w
  = (Throw message, snd (super scope id w)).
Proof.
  intro H. unfold WindowsFileSystem.constructor. simpl. rewrite H. reflexivity.
Qed.

(** When [validateProps] returns, the constructor returns a handle, having
    added one ingress rule and created one [CfnFileSystem]. *)
Lemma constructor_Ok (log2r : Q -> bool) (env : Env) (scope : Construct) (id : string)
    (props : WindowsFileSystem.WindowsFileSystemProps)
    (w : World WindowsFileSystem.CfnFileSystemProps) :
  WindowsFileSystem.validateProps log2r props = Ok tt ->
  exists handle w',
    WindowsFileSystem.constructor log2r env scope id props w = (Ok handle, w')
    /\ List.length (ingressRules w') = S (List.length (ingressRules w))
    /\ List.length (cfnFileSystems w') = S (List.length (cfnFileSystems w))
    /\ List.length (allocatedSecurityGroups w')
       = (List.length (allocatedSecurityGroups w)
          + match securityGroup (WindowsFileSystem.base props) with
            | Some _ => 0
            | None => 1
            end)%nat.
Proof.
  intro H. unfold WindowsFileSystem.constructor. simpl. rewrite H.
  destruct (securityGroup (WindowsFileSystem.base props)); simpl;
    eexists; eexists; (split; [reflexivity|]); simpl;
    rewrite ?length_app; simpl; repeat split; lia.
Qed.

(** C9. On every input on which some validator of [validateProps] fails,
    the constructor raises the error of the first failing validator, and
    up to that point no security group has been allocated, no ingress rule
    added and no [CfnFileSystem] given a property tree: the world differs
    from the initial one by the construct attached to its scope only. *)
Theorem constructor_validates_before_assembling
    (log2r : Q -> bool) (env : Env) (scope : Construct) (id : string)
    (props : WindowsFileSystem.WindowsFileSystemProps)
    (w : World WindowsFileSystem.CfnFileSystemProps) :
  (exists m, In (Throw m) (validators log2r props)) ->
  exists message w',
    WindowsFileSystem.constructor log2r env scope id props w = (Throw message, w')
    /\ first_failure (validators log2r props) = Throw message
    /\ In (Throw message) (validators log2r props)
    /\ nothing_assembled w w'
    /\ constructs w' = (constructs w ++ [child scope id])%list.
Proof.
  intro Hfail. apply first_failure_Throw in Hfail. destruct Hfail as [message Hff].
  exists message, (snd (super scope id w)).
  split.
  - apply constructor_Throw. rewrite validateProps_first_failure. assumption.
  - split; [assumption|]. split; [apply first_failure_In; assumption|].
    split; [|reflexivity]. repeat split.
Qed.

(** A throughput capacity of 7 on otherwise valid input. *)
Lemma constructor_validates_before_assembling_at_7 :
  exists message w',
    WindowsFileSystem.constructor sample_log2 sample_env (js "Stack") "FsxFileSystem"
      (sample_props (int 7) (int 1200)) (empty_world WindowsFileSystem.CfnFileSystemProps)
    = (Throw message, w')
    /\ first_failure (validators sample_log2 (sample_props (int 7) (int 1200))) = Throw message
    /\ In (Throw message) (validators sample_log2 (sample_props (int 7) (int 1200)))
    /\ nothing_assembled (empty_world WindowsFileSystem.CfnFileSystemProps) w'
    /\ constructs w'
       = (constructs (empty_world WindowsFileSystem.CfnFileSystemProps) ++ [child (js "Stack") "FsxFileSystem"])%list.
Proof.
  apply (constructor_validates_before_assembling sample_log2 sample_env (js "Stack")
           "FsxFileSystem" (sample_props (int 7) (int 1200)) (empty_world WindowsFileSystem.CfnFileSystemProps)).
  exists "Throughput Capacity must be between 8 and 4096 GiB and a power of 2".
  right. left. reflexivity.
Defined.

(** ** Storage capacity *)

Lemma validateStorageCapacity_Ok (s : number) :
  WindowsFileSystemTs.validateStorageCapacity s = Ok tt <-> storage_accepted s.
Proof.
  unfold WindowsFileSystemTs.validateStorageCapacity, storage_accepted, gt, int.
  destruct s as [q| | |]; simpl.
  - destruct (Qle_bool (inject_Z 32) q) eqn:E1;
      destruct (Qle_bool q (inject_Z 65536)) eqn:E2; simpl.
    + apply Qle_bool_iff in E1, E2. split; [|reflexivity].
      intros _. right. exists q. auto.
    + split; [discriminate|]. intros [H | [q' [Hq [_ Hhi]]]]; [discriminate|].
      injection Hq as <-. apply Qle_bool_iff in Hhi. congruence.
    + split; [discriminate|]. intros [H | [q' [Hq [Hlo _]]]]; [discriminate|].
      injection Hq as <-. apply Qle_bool_iff in Hlo. congruence.
    + split; [discriminate|]. intros [H | [q' [Hq [Hlo _]]]]; [discriminate|].
      injection Hq as <-. apply Qle_bool_iff in Hlo. congruence.
  - split; auto.
  - split; [discriminate|]. intros [H | [q [H _]]]; discriminate.
  - split; [discriminate|]. intros [H | [q [H _]]]; discriminate.
Qed.

Lemma validateStorageCapacity_Throw (s : number) :
  WindowsFileSystemTs.validateStorageCapacity s
  = Throw "storageCapacity must be between 32 and 65536 GiB"
  <-> ~ storage_accepted s.
Proof.
  rewrite <- validateStorageCapacity_Ok.
  unfold WindowsFileSystemTs.validateStorageCapacity.
  destruct (lt s (int 32) || gt s (int 65536)).
  - split; [discriminate | reflexivity].
  - split; [discriminate|]. intro H. contradiction H. reflexivity.
Qed.

Lemma storage_accepted_int (z : Z) :
  storage_accepted (int z) <-> (32 <= z <= 65536)%Z.
Proof.
  unfold storage_accepted, int. split.
  - intros [H | [q [Hq [Hlo Hhi]]]]; [discriminate|].
    injection Hq as <-. rewrite <- Zle_Qle in Hlo, Hhi. lia.
  - intros [Hlo Hhi]. right. exists (inject_Z z).
    rewrite <- !Zle_Qle. auto.
Qed.

(** C1, as the sources have it.  In [lib/windows-file-system.ts] the
    validation phase runs the throughput validator and then the storage
    validator, before any assembly.  The storage validator accepts [s] if
    and only if [s] is not below 32 and not above 65536 - on the integers,
    if and only if [32 <= s <= 65536]; whether [s] is an integer is not
    checked.  Construction fails for every other [s] with nothing
    assembled, and with the storage-capacity violation when the throughput
    capacity is valid. *)
Theorem storage_capacity_validated_before_assembly (s : number) :
  (WindowsFileSystemTs.validateStorageCapacity s = Ok tt <-> storage_accepted s)
  /\ (WindowsFileSystemTs.validateStorageCapacity s
      = Throw "storageCapacity must be between 32 and 65536 GiB"
      <-> ~ storage_accepted s)
  /\ (forall z, s = int z -> (storage_accepted s <-> (32 <= z <= 65536)%Z))
  /\ (forall log2r props,
        WindowsFileSystemTs.validateProps log2r props
        = first_failure (validators_ts log2r props))
  /\ (forall log2r env scope id props w,
        storageCapacityGiB (WindowsFileSystemTs.base props) = s ->
        ~ storage_accepted s ->
        exists message w',
          WindowsFileSystemTs.constructor log2r env scope id props w
          = (Throw message, w')
          /\ nothing_assembled w w'
          /\ (WindowsFileSystemTs.validateThroughputCapacity log2r
                (WindowsFileSystemTs.throughputCapacity
                   (WindowsFileSystemTs.windowsConfiguration props)) = Ok tt ->
              message = "storageCapacity must be between 32 and 65536 GiB")).
Proof.
  split; [apply validateStorageCapacity_Ok|].
  split; [apply validateStorageCapacity_Throw|].
  split; [intros z ->; apply storage_accepted_int|].
  split; [apply validateProps_ts_first_failure|].
  intros log2r env scope id props w Hs Hrej.
  apply validateStorageCapacity_Throw in Hrej.
  unfold WindowsFileSystemTs.constructor, WindowsFileSystemTs.validateProps.
  simpl. rewrite Hs, Hrej.
  destruct (WindowsFileSystemTs.validateThroughputCapacity log2r _) as [u|m]; simpl.
  - eexists; eexists. split; [reflexivity|]. split; [repeat split | reflexivity].
  - eexists; eexists. split; [reflexivity|]. split; [repeat split | discriminate].
Qed.

(** C1, as stated, at the storage capacity 32.5: it is no integer, and
    the storage validator and the constructor of
    [lib/windows-file-system.ts] accept it.  In the revision [part_000]
    no validator looks at the storage capacity, and a capacity of 0 is
    accepted as well. *)
Lemma storage_capacity_integrality_not_checked :
  Number_isInteger (Finite (65 # 2)) = false
  /\ WindowsFileSystemTs.validateStorageCapacity (Finite (65 # 2)) = Ok tt
  /\ (forall log2r,
        is_ok (fst (WindowsFileSystemTs.constructor log2r sample_env (js "Stack")
                      "FsxFileSystem" (sample_props_ts (int 8) (Finite (65 # 2)))
                      (empty_world WindowsFileSystemTs.CfnFileSystemProps)))
        = true)
  /\ (forall log2r,
        WindowsFileSystem.validateProps log2r (sample_props (int 8) (int 0))
        = Ok tt)
  /\ (forall log2r,
        is_ok (fst (WindowsFileSystem.constructor log2r sample_env (js "Stack")
                      "FsxFileSystem" (sample_props (int 8) (int 0))
                      (empty_world WindowsFileSystem.CfnFileSystemProps)))
        = true).
Proof. repeat split. Qed.

Example validateStorageCapacity_examples :
  map (fun s => is_ok (WindowsFileSystemTs.validateStorageCapacity s))
      [int 32; int 1200; int 65536; int 31; int 65537; int 0; int (-5);
       Finite (65 # 2); NaN; PosInfinity; NegInfinity]
  = [true; true; true; false; false; false; false; true; true; false; false].
Proof. reflexivity. Qed.

(** ** Adopting an existing file system *)

(** C10. Whatever the attributes, [fromWindowsFileSystemAttributes]
    returns a handle - no validator stands in its way - whose [dnsName]
    and [fileSystemId] are the attributes supplied and whose connections
    wrap exactly the security group supplied, on the default port range;
    it allocates no security group, adds no ingress rule and creates no
    resource.  This holds of both revisions of the class. *)
Theorem fromWindowsFileSystemAttributes_adopts_verbatim
    (scope : Construct) (id : string) (attrs : FileSystemAttributes) :
  (forall w, exists handle w',
      WindowsFileSystem.fromWindowsFileSystemAttributes scope id attrs w
      = (Ok handle, w')
      /\ dnsName handle = attrs_dnsName attrs
      /\ fileSystemId handle = attrs_fileSystemId attrs
      /\ securityGroups (connections handle) = [attrs_securityGroup attrs]
      /\ defaultPort (connections handle) = tcpRange 988 1023
      /\ nothing_assembled w w'
      /\ constructs w' = (constructs w ++ [child scope id])%list)
  /\ (forall w, exists handle w',
        WindowsFileSystemTs.fromWindowsFileSystemAttributes scope id attrs w
        = (Ok handle, w')
        /\ dnsName handle = attrs_dnsName attrs
        /\ fileSystemId handle = attrs_fileSystemId attrs
        /\ securityGroups (connections handle) = [attrs_securityGroup attrs]
        /\ defaultPort (connections handle) = tcpRange 988 1023
        /\ nothing_assembled w w'
        /\ constructs w' = (constructs w ++ [child scope id])%list).
Proof.
  split; intro w; eexists; eexists; (split; [reflexivity|]);
    repeat split.
Qed.

(** Attributes no validator of the constructor would let through - an empty
    name, an empty identifier - are adopted as they are. *)
Example fromWindowsFileSystemAttributes_example :
  fst (WindowsFileSystem.fromWindowsFileSystemAttributes (js "Stack") "Imported"
         {| attrs_dnsName := []; attrs_fileSystemId := [];
            attrs_securityGroup := {| securityGroupId := js "sg-1" |} |}
         (empty_world WindowsFileSystem.CfnFileSystemProps))
  = Ok {| connections :=
            {| securityGroups := [{| securityGroupId := js "sg-1" |}];
               defaultPort := tcpRange 988 1023 |};
          dnsName := [];
          fileSystemId := [] |}.
Proof. reflexivity. Qed.

(* ================================================================== *)
(** * Further properties of the validators *)

Lemma forallb_pointwise (p q : N -> bool) (s : jsstring) :
  (forall c, p c = q c) -> forallb p s = forallb q s.
Proof.
  intro H. induction s as [|c s IH]; simpl; [reflexivity|].
  rewrite H, IH. reflexivity.
Qed.

Lemma dot_matches_terminators (c : N) :
  dot_matches c = true <-> ~ In c terminators.
Proof.
  unfold dot_matches, in_ranges, line_terminators, terminators. simpl.
  rewrite negb_true_iff, !orb_false_iff, !andb_false_iff, !N.leb_nle. lia.
Qed.

Lemma lower_hex_class (c : N) :
  class_matches false [(48, 57); (97, 102)]%N c = is_lower_hex c.
Proof.
  unfold class_matches, in_ranges, is_lower_hex. simpl.
  rewrite orb_false_r. reflexivity.
Qed.

Lemma lang_activeDirectoryRegex (s : jsstring) :
  lang WindowsFileSystem.activeDirectoryRegex s
  <-> exists digits, s = (js "d-" ++ digits)%list
                     /\ List.length digits = 10%nat
                     /\ forallb is_lower_hex digits = true.
Proof.
  unfold WindowsFileSystem.activeDirectoryRegex.
  change (WindowsFileSystem.code "0") with 48%N.
  change (WindowsFileSystem.code "9") with 57%N.
  change (WindowsFileSystem.code "a") with 97%N.
  change (WindowsFileSystem.code "f") with 102%N.
  split; intro H.
  - apply lang_Seq in H. destruct H as [p [digits [-> [Hp Hd]]]].
    apply lang_lit in Hp. subst p.
    apply lang_Rep_Class in Hd. destruct Hd as [Hlen Hall].
    exists digits. repeat split; try lia.
    rewrite <- Hall. apply forallb_pointwise. intro c. symmetry. apply lower_hex_class.
  - destruct H as [digits [-> [Hlen Hall]]].
    apply lang_Seq. exists (js "d-"), digits. split; [reflexivity|].
    split; [apply lang_lit; reflexivity|].
    apply lang_Rep_Class. split; [lia|].
    rewrite <- Hall. apply forallb_pointwise. intro c. apply lower_hex_class.
Qed.

Lemma validateActiveDirectoryId_as_validateString (value : option jsstring) :
  WindowsFileSystem.validateActiveDirectoryId value
  = WindowsFileSystem.validateString WindowsFileSystem.activeDirectoryRegex
      "Active Directory ID must begin with the literal d- and should be followed by exactly 10 alphanumeric characters. Allowed alphanumeric values include 0-9 and a-f."
      value.
Proof. reflexivity. Qed.

Lemma lang_passwordRegex (s : jsstring) :
  lang WindowsFileSystem.passwordRegex s
  <-> (1 <= List.length s <= 256)%nat /\ Forall (fun c => ~ In c terminators) s.
Proof.
  unfold WindowsFileSystem.passwordRegex. rewrite lang_Rep_Dot.
  rewrite forallb_forall, Forall_forall.
  split; intros [Hlen Hall]; (split; [assumption|]); intros c Hc;
    apply dot_matches_terminators, Hall, Hc.
Qed.

(** X1. The directory identifier: a present identifier is accepted if and
    only if it is empty or is [d-] followed by exactly ten characters, each
    a digit or a letter from [a] to [f] in lower case; every other present
    identifier raises the violation of the identifier, and an absent one is
    accepted. *)
Theorem validateActiveDirectoryId_accepts_iff (s : jsstring) :
  (WindowsFileSystem.validateActiveDirectoryId (Some s) = Ok tt
   <-> s = []
       \/ exists digits, s = (js "d-" ++ digits)%list
                         /\ List.length digits = 10%nat
                         /\ forallb is_lower_hex digits = true)
  /\ (is_ok (WindowsFileSystem.validateActiveDirectoryId (Some s)) = false
      -> WindowsFileSystem.validateActiveDirectoryId (Some s)
         = Throw "Active Directory ID must begin with the literal d- and should be followed by exactly 10 alphanumeric characters. Allowed alphanumeric values include 0-9 and a-f.")
  /\ WindowsFileSystem.validateActiveDirectoryId None = Ok tt.
Proof.
  split; [|split; [|reflexivity]].
  - rewrite validateActiveDirectoryId_as_validateString, validateString_Ok,
      lang_activeDirectoryRegex. reflexivity.
  - unfold WindowsFileSystem.validateActiveDirectoryId.
    destruct (truthy s && negb (RegExp_test WindowsFileSystem.activeDirectoryRegex s));
      [reflexivity | discriminate].
Qed.

Example validateActiveDirectoryId_examples :
  map (fun s => is_ok (WindowsFileSystem.validateActiveDirectoryId (Some (js s))))
      ["d-0123456789"; "d-abcdef0123"; "d-ABCDEF0123"; "d-012345678";
       "d-01234567890"; "0123456789ab"; "d-012345678g"; ""]
  = [true; true; false; false; false; false; false; true].
Proof. vm_compute. reflexivity. Qed.

(** X2. The password: a present password is accepted if and only if it is
    empty or has between 1 and 256 characters none of which is a line
    terminator (line feed, carriage return, line separator, paragraph
    separator); NUL and NEL, which the other free-text fields refuse, are
    allowed in it.  A password holding a line terminator is refused under
    the message about the 256-character limit, whatever its length. *)
Theorem validatePassword_accepts_iff (s : jsstring) :
  (WindowsFileSystem.validatePassword (Some s) = Ok tt
   <-> s = []
       \/ ((1 <= List.length s <= 256)%nat
           /\ Forall (fun c => ~ In c terminators) s))
  /\ (WindowsFileSystem.validatePassword (Some s)
      = Throw "Password must not exceed 256 characters limit."
      <-> s <> []
          /\ ~ ((1 <= List.length s <= 256)%nat
                /\ Forall (fun c => ~ In c terminators) s))
  /\ WindowsFileSystem.validatePassword (Some [0; 133]%N) = Ok tt
  /\ WindowsFileSystem.validatePassword (Some [112; 10; 119]%N)
     = Throw "Password must not exceed 256 characters limit.".
Proof.
  unfold WindowsFileSystem.validatePassword.
  rewrite validateString_Ok, validateString_Throw, lang_passwordRegex.
  repeat split; try tauto; vm_compute; reflexivity.
Qed.

(** X3. The user name, the administrators group and the distinguished
    name of the organizational unit: each is accepted, when present, if and
    only if it is empty or free text - no NUL, NEL, line or paragraph
    separator, carriage return or line feed - of at most 256, 256 and 2000
    characters respectively, and is refused with its own message
    otherwise. *)
Theorem free_text_validators_accept_iff (s : jsstring) :
  (WindowsFileSystem.validateUsername (Some s) = Ok tt
   <-> s = [] \/ free_text 256 s)
  /\ (WindowsFileSystem.validateFileSystemAdministratorsGroup (Some s) = Ok tt
      <-> s = [] \/ free_text 256 s)
  /\ (WindowsFileSystem.validateOrganizationalUnitDistinguishedName (Some s) = Ok tt
      <-> s = [] \/ free_text 2000 s)
  /\ (WindowsFileSystem.validateUsername (Some s)
      = Throw "Username must not contain newline, carriage return, line separator or paragraph separator and must not exceed 256 characters limit."
      <-> s <> [] /\ ~ free_text 256 s)
  /\ (WindowsFileSystem.validateFileSystemAdministratorsGroup (Some s)
      = Throw "Value must be a valid Domain Group. It must not contain newline, carriage return, line separator or paragraph separator and must not exceed 256 characters limit."
      <-> s <> [] /\ ~ free_text 256 s)
  /\ (WindowsFileSystem.validateOrganizationalUnitDistinguishedName (Some s)
      = Throw "Value must be a valid fully qualified distinguished name of the organizational unit. It must not contain newline, carriage return, line separator or paragraph separator and must not exceed 2000 characters limit."
      <-> s <> [] /\ ~ free_text 2000 s).
Proof.
  unfold WindowsFileSystem.validateUsername,
         WindowsFileSystem.validateFileSystemAdministratorsGroup,
         WindowsFileSystem.validateOrganizationalUnitDistinguishedName,
         WindowsFileSystem.usernameRegex, WindowsFileSystem.fsAdminGroupRegex,
         WindowsFileSystem.ouNameRegex, free_text.
  rewrite !validateString_Ok, !validateString_Throw, !lang_Rep_no_separator.
  repeat split; tauto.
Qed.

(** ** The order of validation *)

Lemma first_failure_all_accept (checks : list (result unit)) :
  first_failure checks = Ok tt <-> all_accept checks.
Proof.
  unfold all_accept. induction checks as [|[[]|m] rest IH]; simpl.
  - split; auto.
  - rewrite IH. split.
    + intro H. constructor; [reflexivity | assumption].
    + intro H. inversion H. assumption.
  - split; [discriminate|]. intro H. inversion H. discriminate.
Qed.

Lemma first_failure_after_accepting (before after : list (result unit)) (m : string) :
  all_accept before ->
  first_failure (before ++ Throw m :: after)%list = Throw m.
Proof.
  unfold all_accept. induction before as [|r before IH]; simpl; intro H.
  - reflexivity.
  - inversion H as [|? ? Hr Hrest]. subst. simpl. apply IH. assumption.
Qed.

(** X4. [validateProps] returns if and only if each of its eleven
    validators returns, and otherwise reports the earliest failure in the
    order directory identifier, throughput, aliases, preferred subnet, DNS
    addresses, domain name, administrators group, organizational unit,
    password, user name, audit log destination: the error of a validator
    is raised as soon as all the validators before it have accepted,
    whatever the ones after it would say. *)
Theorem validateProps_reports_earliest_failure
    (log2r : Q -> bool) (props : WindowsFileSystem.WindowsFileSystemProps) :
  List.length (validators log2r props) = 11%nat
  /\ (WindowsFileSystem.validateProps log2r props = Ok tt
      <-> all_accept (validators log2r props))
  /\ (forall before m after,
        validators log2r props = (before ++ Throw m :: after)%list ->
        all_accept before ->
        WindowsFileSystem.validateProps log2r props = Throw m).
Proof.
  rewrite validateProps_first_failure.
  split; [reflexivity|]. split.
  - apply first_failure_all_accept.
  - intros before m after Heq Hacc. rewrite Heq.
    apply first_failure_after_accepting. assumption.
Qed.

(** A directory identifier in upper case and a throughput of 7 together:
    the identifier is reported. *)
Example validateProps_order_example :
  WindowsFileSystem.validateProps sample_log2
    {| WindowsFileSystem.base := sample_base (int 1200);
       WindowsFileSystem.windowsConfiguration :=
         {| WindowsFileSystem.deploymentType := MULTI_AZ_1;
            WindowsFileSystem.activeDirectoryId := Some (js "d-ABCDEF0123");
            WindowsFileSystem.aliases := None;
            WindowsFileSystem.auditLogConfiguration := None;
            WindowsFileSystem.automaticBackupRetentionDays := None;
            WindowsFileSystem.copyTagsToBackups := None;
            WindowsFileSystem.dailyAutomaticBackupStartTime := None;
            WindowsFileSystem.preferredSubnetId := None;
            WindowsFileSystem.selfManagedActiveDirectoryConfiguration := None;
            WindowsFileSystem.storageType := None;
            WindowsFileSystem.throughputCapacity := int 7;
            WindowsFileSystem.weeklyMaintenanceStartTime := None |};
       WindowsFileSystem.vpcSubnet := {| subnetId := js "subnet-1" |} |}
  = Throw "Active Directory ID must begin with the literal d- and should be followed by exactly 10 alphanumeric characters. Allowed alphanumeric values include 0-9 and a-f.".
Proof. vm_compute. reflexivity. Qed.

(** ** The throughput capacities, listed *)

(** X5. On the integers, both revisions of the throughput validator
    accept exactly the ten values 8, 16, 32, 64, 128, 256, 512, 1024, 2048
    and 4096. *)
Theorem validateThroughputCapacity_accepted_integers
    (log2r : Q -> bool) (z : Z) :
  (WindowsFileSystem.validateThroughputCapacity log2r (int z) = Ok tt
   <-> In z [8; 16; 32; 64; 128; 256; 512; 1024; 2048; 4096]%Z)
  /\ (WindowsFileSystemTs.validateThroughputCapacity log2r (int z) = Ok tt
      <-> In z [8; 16; 32; 64; 128; 256; 512; 1024; 2048; 4096]%Z).
Proof.
  assert (H : throughput_rejected log2r (int z) = false
              <-> In z [8; 16; 32; 64; 128; 256; 512; 1024; 2048; 4096]%Z).
  { rewrite throughput_rejected_false,
      (throughput_accepted_integer log2r (int z) (isInteger_int z)),
      valid_throughput_exponent. split.
    - intros [q [k [Hq [Hk Heq]]]]. unfold int in Hq. injection Hq as <-.
      assert (Hz : z = (2 ^ k)%Z) by (apply inject_Z_injective; exact Heq).
      assert (Hcases : k = 3 \/ k = 4 \/ k = 5 \/ k = 6 \/ k = 7 \/ k = 8
                       \/ k = 9 \/ k = 10 \/ k = 11 \/ k = 12) by lia.
      simpl.
      repeat (destruct Hcases as [-> | Hcases]; [subst z; tauto|]).
      subst k z. tauto.
    - intro Hin. exists (inject_Z z).
      simpl in Hin.
      repeat (destruct Hin as [<- | Hin];
              [ match goal with
                | |- context [inject_Z ?v] =>
                    exists (Z.log2 v); repeat split; try (vm_compute; congruence)
                end | ]).
      contradiction. }
  unfold WindowsFileSystem.validateThroughputCapacity,
         WindowsFileSystemTs.validateThroughputCapacity.
  fold (throughput_rejected log2r (int z)).
  destruct (throughput_rejected log2r (int z)).
  - split; (split; [discriminate|]); intro Hin; apply H in Hin; discriminate.
  - split; (split; [intros _; apply H; reflexivity | reflexivity]).
Qed.

(** ** The backup start time, further *)

(** How an integral value below [2^53] prints, whichever fraction stands
    for it. *)
Lemma Number_toString_integer (render : Q -> string) (q : Q) (z : Z) :
  q == inject_Z z -> (Z.abs z < 2 ^ 53)%Z ->
  Number_toString render (Finite q) = NilZero.string_of_int (Z.to_int z).
Proof.
  intros Heq Hz. unfold Number_toString.
  pose proof (Qeq_inject_floor q z Heq) as Hfl.
  assert (Hint : Number_isInteger (Finite q) = true).
  { apply isInteger_Finite. rewrite Hfl. assumption. }
  rewrite Hint, Hfl.
  assert (Hlt : (Z.abs z <? 2 ^ 53)%Z = true) by (apply Z.ltb_lt; assumption).
  rewrite Hlt. reflexivity.
Qed.

Lemma getTwoDigitString_integer (render : Q -> string) (q : Q) (z : Z) :
  q == inject_Z z -> (0 <= z <= 59)%Z ->
  BackupStartTime.getTwoDigitString render (Finite q) = two_digits z.
Proof.
  intros Heq Hz. rewrite <- (getTwoDigitString_two_digits render z Hz).
  unfold BackupStartTime.getTwoDigitString.
  assert (Hb : (Z.abs z < 2 ^ 53)%Z) by (change (2 ^ 53)%Z with 9007199254740992%Z; lia).
  rewrite (Number_toString_integer render q z Heq Hb).
  unfold int.
  rewrite (Number_toString_integer render (inject_Z z) z (Qeq_refl _) Hb).
  reflexivity.
Qed.

(** What a successful construction tells of the numbers given. *)
Lemma backup_start_time_inversion
    (render : Q -> string) (props : BackupStartTime.BackupStartTimeProps)
    (t : BackupStartTime.BackupStartTime) :
  BackupStartTime.constructor render props = Ok t ->
  exists h m,
    (0 <= h <= 24)%Z /\ (0 <= m <= 59)%Z
    /\ integer_between h h (BackupStartTime.hour props)
    /\ integer_between m m (BackupStartTime.minute props)
    /\ BackupStartTime.this_hour t = two_digits h
    /\ BackupStartTime.this_minute t = two_digits m
    /\ BackupStartTime.toTimestamp t = two_digits h ++ ":" ++ two_digits m.
Proof.
  unfold BackupStartTime.constructor. rewrite validate_cases.
  destruct (out_of_range 0 24 (BackupStartTime.hour props)) eqn:Eh;
    [discriminate|].
  destruct (out_of_range 0 59 (BackupStartTime.minute props)) eqn:Em;
    [discriminate|].
  simpl. intro Ht. injection Ht as <-.
  apply out_of_range_false in Eh, Em.
  destruct Eh as [qh [h [Hqh [Heqh Hh]]]].
  destruct Em as [qm [m [Hqm [Heqm Hm]]]].
  exists h, m. unfold BackupStartTime.toTimestamp. simpl.
  rewrite Hqh, Hqm.
  rewrite (getTwoDigitString_integer render qh h Heqh) by lia.
  rewrite (getTwoDigitString_integer render qm m Heqm) by lia.
  repeat split; try lia.
  - exists qh, h. repeat split; try assumption; lia.
  - exists qm, m. repeat split; try assumption; lia.
Qed.

(** X6. Whatever numbers it was built from, a backup start time that was
    constructed holds an hour [h] and a minute [m], integers with
    [0 <= h <= 24] and [0 <= m <= 59] equal to the numbers given, each kept
    as its two digits, and its timestamp is [HH:MM]: no object of the class
    prints anything else. *)
Theorem BackupStartTime_constructed_is_well_formed
    (render : Q -> string) (props : BackupStartTime.BackupStartTimeProps)
    (t : BackupStartTime.BackupStartTime) :
  BackupStartTime.constructor render props = Ok t ->
  exists h m,
    (0 <= h <= 24)%Z /\ (0 <= m <= 59)%Z
    /\ integer_between h h (BackupStartTime.hour props)
    /\ integer_between m m (BackupStartTime.minute props)
    /\ BackupStartTime.this_hour t = two_digits h
    /\ BackupStartTime.this_minute t = two_digits m
    /\ BackupStartTime.toTimestamp t = two_digits h ++ ":" ++ two_digits m.
Proof.
  apply backup_start_time_inversion.
Qed.

(** The hour given as the fraction 10/2, the minute as 0. *)
Lemma BackupStartTime_constructed_is_well_formed_at_5 :
  exists h m,
    (0 <= h <= 24)%Z /\ (0 <= m <= 59)%Z
    /\ integer_between h h (Finite (10 # 2))
    /\ integer_between m m (int 0)
    /\ "05" = two_digits h
    /\ "00" = two_digits m
    /\ "05:00" = two_digits h ++ ":" ++ two_digits m.
Proof.
  apply (BackupStartTime_constructed_is_well_formed no_render
           {| BackupStartTime.hour := Finite (10 # 2);
              BackupStartTime.minute := int 0 |}
           {| BackupStartTime.this_hour := "05";
              BackupStartTime.this_minute := "00" |}).
  reflexivity.
Defined.

Lemma digit_injective (a b : Z) :
  (0 <= a <= 9)%Z -> (0 <= b <= 9)%Z -> digit a = digit b -> a = b.
Proof.
  intros Ha Hb H. unfold digit in H.
  apply (f_equal nat_of_ascii) in H.
  rewrite !nat_ascii_embedding in H by lia. lia.
Qed.

Lemma two_digits_injective (a b : Z) :
  (0 <= a <= 99)%Z -> (0 <= b <= 99)%Z -> two_digits a = two_digits b -> a = b.
Proof.
  intros Ha Hb H. unfold two_digits in H.
  assert (H1 : digit (a / 10) = digit (b / 10)) by congruence.
  assert (H0 : digit (a mod 10) = digit (b mod 10)) by congruence.
  pose proof (Z.div_pos a 10 ltac:(lia) ltac:(lia)).
  pose proof (Z.div_pos b 10 ltac:(lia) ltac:(lia)).
  pose proof (Z.div_lt_upper_bound a 10 10 ltac:(lia) ltac:(lia)).
  pose proof (Z.div_lt_upper_bound b 10 10 ltac:(lia) ltac:(lia)).
  pose proof (Z.mod_pos_bound a 10 ltac:(lia)).
  pose proof (Z.mod_pos_bound b 10 ltac:(lia)).
  apply digit_injective in H1; [|lia|lia].
  apply digit_injective in H0; [|lia|lia].
  rewrite (Z.div_mod a 10), (Z.div_mod b 10) by lia. lia.
Qed.

Lemma backup_timestamp_of_int (render : Q -> string) (h m : Z)
    (t : BackupStartTime.BackupStartTime) :
  (0 <= h <= 24)%Z -> (0 <= m <= 59)%Z ->
  BackupStartTime.constructor render
    {| BackupStartTime.hour := int h; BackupStartTime.minute := int m |} = Ok t ->
  BackupStartTime.toTimestamp t = two_digits h ++ ":" ++ two_digits m.
Proof.
  intros Hh Hm. unfold BackupStartTime.constructor. simpl.
  rewrite validate_int by assumption. simpl. intro Ht. injection Ht as <-.
  unfold BackupStartTime.toTimestamp. simpl.
  rewrite !getTwoDigitString_two_digits by lia. reflexivity.
Qed.

(** X7. Two backup start times print the same timestamp only if they are
    the same time: on the hours of [[0,24]] and the minutes of [[0,59]],
    [toTimestamp] loses nothing of what the object was built from. *)
Theorem BackupStartTime_toTimestamp_injective
    (render : Q -> string) (h m h' m' : Z)
    (t t' : BackupStartTime.BackupStartTime) :
  (0 <= h <= 24)%Z -> (0 <= m <= 59)%Z ->
  (0 <= h' <= 24)%Z -> (0 <= m' <= 59)%Z ->
  BackupStartTime.constructor render
    {| BackupStartTime.hour := int h; BackupStartTime.minute := int m |} = Ok t ->
  BackupStartTime.constructor render
    {| BackupStartTime.hour := int h'; BackupStartTime.minute := int m' |} = Ok t' ->
  BackupStartTime.toTimestamp t = BackupStartTime.toTimestamp t' ->
  h = h' /\ m = m'.
Proof.
  intros Hh Hm Hh' Hm' Ht Ht' Heq.
  rewrite (backup_timestamp_of_int render h m t Hh Hm Ht) in Heq.
  rewrite (backup_timestamp_of_int render h' m' t' Hh' Hm' Ht') in Heq.
  unfold two_digits in Heq. simpl in Heq.
  split; apply two_digits_injective; try lia; unfold two_digits; congruence.
Qed.

(** Twice 23:59. *)
Lemma BackupStartTime_toTimestamp_injective_at_23_59 :
  (23 = 23 /\ 59 = 59)%Z.
Proof.
  apply (BackupStartTime_toTimestamp_injective no_render 23 59 23 59
           {| BackupStartTime.this_hour := "23"; BackupStartTime.this_minute := "59" |}
           {| BackupStartTime.this_hour := "23"; BackupStartTime.this_minute := "59" |});
    try lia; reflexivity.
Defined.

(** X8. Padding keeps the number: for every integer [z] with
    [0 <= z < 2^53], [getTwoDigitString] yields at least two characters,
    and they read back, as a decimal numeral, as [z]. *)
Theorem getTwoDigitString_reads_back (render : Q -> string) (z : Z) :
  (0 <= z < 2 ^ 53)%Z ->
  (2 <= String.length (BackupStartTime.getTwoDigitString render (int z)))%nat
  /\ option_map Z.of_uint
       (NilZero.uint_of_string (BackupStartTime.getTwoDigitString render (int z)))
     = Some z.
Proof.
  intro Hz. unfold BackupStartTime.getTwoDigitString, int.
  rewrite (Number_toString_integer render (inject_Z z) z (Qeq_refl _))
    by (rewrite Z.abs_eq; lia).
  destruct z as [|p|p]; [split; reflexivity | | lia].
  simpl Z.to_int. simpl NilZero.string_of_int.
  pose proof (Unsigned.to_uint_nonnil p) as Hnil.
  pose proof (DecimalPos.Unsigned.of_to p) as Hof.
  assert (Hs : NilZero.string_of_uint (Pos.to_uint p)
               = NilEmpty.string_of_uint (Pos.to_uint p))
    by (destruct (Pos.to_uint p); [contradiction | reflexivity ..]).
  rewrite Hs.
  assert (Hlen : (1 <= String.length (NilEmpty.string_of_uint (Pos.to_uint p)))%nat)
    by (destruct (Pos.to_uint p); [contradiction | simpl; lia ..]).
  assert (Hparse : NilEmpty.uint_of_string
                     (NilEmpty.string_of_uint (Pos.to_uint p))
                   = Some (Pos.to_uint p)) by apply NilEmpty.usu.
  destruct (String.length (NilEmpty.string_of_uint (Pos.to_uint p)) =? 1)%nat eqn:E.
  - apply Nat.eqb_eq in E. split.
    + simpl. lia.
    + change ("0" ++ NilEmpty.string_of_uint (Pos.to_uint p))
        with (String "0" (NilEmpty.string_of_uint (Pos.to_uint p))).
      unfold NilZero.uint_of_string. simpl NilEmpty.uint_of_string.
      rewrite Hparse. simpl. unfold Z.of_uint. simpl Pos.of_uint.
      rewrite Hof. reflexivity.
  - apply Nat.eqb_neq in E. split; [lia|].
    unfold NilZero.uint_of_string.
    destruct (NilEmpty.string_of_uint (Pos.to_uint p)) eqn:Es;
      [simpl in Hlen; lia|].
    rewrite Hparse. simpl. unfold Z.of_uint. rewrite Hof. reflexivity.
Qed.

(** On 7 and on 1200. *)
Lemma getTwoDigitString_reads_back_examples :
  ((2 <= String.length "07")%nat
   /\ option_map Z.of_uint (NilZero.uint_of_string "07") = Some 7%Z)
  /\ ((2 <= String.length "1200")%nat
      /\ option_map Z.of_uint (NilZero.uint_of_string "1200") = Some 1200%Z).
Proof.
  split.
  - apply (getTwoDigitString_reads_back no_render 7). vm_compute. intuition congruence.
  - apply (getTwoDigitString_reads_back no_render 1200). vm_compute. intuition congruence.
Defined.

(** ** What a successful construction leaves behind *)

Lemma constructor_Ok_inv (log2r : Q -> bool) (env : Env) (scope : Construct) (id : string)
    (props : WindowsFileSystem.WindowsFileSystemProps)
    (w w' : World WindowsFileSystem.CfnFileSystemProps)
    (handle : FileSystemHandle) :
  WindowsFileSystem.constructor log2r env scope id props w = (Ok handle, w') ->
  WindowsFileSystem.validateProps log2r props = Ok tt.
Proof.
  unfold WindowsFileSystem.constructor. simpl.
  destruct (WindowsFileSystem.validateProps log2r props) as [[]|m]; [reflexivity|].
  discriminate.
Qed.

(** X9. When validation passes, one security group serves everywhere: the
    one supplied, and then none is allocated, or else a single new group
    [FsxWindowsSecurityGroup] allocated under the construct in the VPC of
    the input.  That same group is the only one the handle's connections
    wrap, on ports 988 to 1023; the one ingress rule added is on it, from
    itself, on those ports; and its identifier is the only one in the tree
    of the one resource created. *)
Theorem constructor_wires_one_security_group
    (log2r : Q -> bool) (env : Env) (scope : Construct) (id : string)
    (props : WindowsFileSystem.WindowsFileSystemProps)
    (w : World WindowsFileSystem.CfnFileSystemProps) :
  WindowsFileSystem.validateProps log2r props = Ok tt ->
  exists handle w' group tree policy,
    WindowsFileSystem.constructor log2r env scope id props w = (Ok handle, w')
    /\ connections handle
       = {| securityGroups := [group]; defaultPort := tcpRange 988 1023 |}
    /\ ingressRules w' = (ingressRules w ++ [self_ingress group])%list
    /\ cfnFileSystems w'
       = (cfnFileSystems w ++ [(fileSystemId handle, tree, policy)])%list
    /\ WindowsFileSystem.cfn_securityGroupIds tree = [securityGroupId group]
    /\ match securityGroup (WindowsFileSystem.base props) with
       | Some supplied =>
           group = supplied
           /\ allocatedSecurityGroups w' = allocatedSecurityGroups w
       | None =>
           group = {| securityGroupId :=
                        child (child scope id) "FsxWindowsSecurityGroup" |}
           /\ allocatedSecurityGroups w'
              = (allocatedSecurityGroups w
                 ++ [(group, vpc (WindowsFileSystem.base props))])%list
       end.
Proof.
  intro H. unfold WindowsFileSystem.constructor. simpl. rewrite H.
  destruct (securityGroup (WindowsFileSystem.base props)) as [g|]; simpl;
    do 5 eexists; repeat split.
Qed.

(** On an input with no security group of its own. *)
Lemma constructor_wires_one_security_group_example :
  exists handle w' group tree policy,
    WindowsFileSystem.constructor sample_log2 sample_env (js "Stack") "FsxFileSystem"
      (sample_props (int 8) (int 1200))
      (empty_world WindowsFileSystem.CfnFileSystemProps)
    = (Ok handle, w')
    /\ connections handle
       = {| securityGroups := [group]; defaultPort := tcpRange 988 1023 |}
    /\ ingressRules w' = ([] ++ [self_ingress group])%list
    /\ cfnFileSystems w' = ([] ++ [(fileSystemId handle, tree, policy)])%list
    /\ WindowsFileSystem.cfn_securityGroupIds tree = [securityGroupId group]
    /\ (group = {| securityGroupId :=
                     child (child (js "Stack") "FsxFileSystem")
                           "FsxWindowsSecurityGroup" |}
        /\ allocatedSecurityGroups w'
           = ([] ++ [(group, {| vpcId := js "vpc-1" |})])%list).
Proof.
  apply (constructor_wires_one_security_group sample_log2 sample_env (js "Stack")
           "FsxFileSystem" (sample_props (int 8) (int 1200))
           (empty_world WindowsFileSystem.CfnFileSystemProps)).
  reflexivity.
Defined.

(** X10. When validation passes, exactly one [CfnFileSystem] is created,
    under the construct; the handle's [fileSystemId] is its reference and
    its [dnsName] is that identifier followed by [.fsx.], the region, a dot
    and the URL suffix.  The resource is of type [WINDOWS], on the one
    subnet of the input, and carries the input's backup identifier, key
    identifier, removal policy and storage capacity as they were given. *)
Theorem constructor_names_the_endpoint
    (log2r : Q -> bool) (env : Env) (scope : Construct) (id : string)
    (props : WindowsFileSystem.WindowsFileSystemProps)
    (w : World WindowsFileSystem.CfnFileSystemProps) :
  WindowsFileSystem.validateProps log2r props = Ok tt ->
  exists handle w' tree,
    WindowsFileSystem.constructor log2r env scope id props w = (Ok handle, w')
    /\ cfnFileSystems w'
       = (cfnFileSystems w
          ++ [(fileSystemId handle, tree,
               removalPolicy (WindowsFileSystem.base props))])%list
    /\ fileSystemId handle = child (child scope id) "Resource"
    /\ dnsName handle
       = (fileSystemId handle ++ js ".fsx." ++ region env ++ js "."
          ++ URL_SUFFIX env)%list
    /\ WindowsFileSystem.cfn_fileSystemType tree = "WINDOWS"
    /\ WindowsFileSystem.cfn_subnetIds tree
       = [subnetId (WindowsFileSystem.vpcSubnet props)]
    /\ WindowsFileSystem.cfn_backupId tree = backupId (WindowsFileSystem.base props)
    /\ WindowsFileSystem.cfn_kmsKeyId tree
       = option_map keyId (kmsKey (WindowsFileSystem.base props))
    /\ WindowsFileSystem.cfn_storageCapacity tree
       = storageCapacityGiB (WindowsFileSystem.base props).
Proof.
  intro H. unfold WindowsFileSystem.constructor. simpl. rewrite H.
  destruct (securityGroup (WindowsFileSystem.base props)) as [g|]; simpl;
    do 3 eexists; repeat split.
Qed.

(** The endpoint of the sample file system. *)
Lemma constructor_names_the_endpoint_example :
  exists handle w' tree,
    WindowsFileSystem.constructor sample_log2 sample_env (js "Stack") "FsxFileSystem"
      (sample_props (int 8) (int 1200))
      (empty_world WindowsFileSystem.CfnFileSystemProps)
    = (Ok handle, w')
    /\ cfnFileSystems w' = ([] ++ [(fileSystemId handle, tree, None)])%list
    /\ fileSystemId handle = js "Stack/FsxFileSystem/Resource"
    /\ dnsName handle
       = (fileSystemId handle ++ js ".fsx." ++ js "eu-central-1" ++ js "."
          ++ js "amazonaws.com")%list
    /\ WindowsFileSystem.cfn_fileSystemType tree = "WINDOWS"
    /\ WindowsFileSystem.cfn_subnetIds tree = [js "subnet-1"]
    /\ WindowsFileSystem.cfn_backupId tree = None
    /\ WindowsFileSystem.cfn_kmsKeyId tree = None
    /\ WindowsFileSystem.cfn_storageCapacity tree = int 1200.
Proof.
  apply (constructor_names_the_endpoint sample_log2 sample_env (js "Stack")
           "FsxFileSystem" (sample_props (int 8) (int 1200))
           (empty_world WindowsFileSystem.CfnFileSystemProps)).
  reflexivity.
Defined.

Lemma validateProps_Ok_inv (log2r : Q -> bool)
    (props : WindowsFileSystem.WindowsFileSystemProps) :
  WindowsFileSystem.validateProps log2r props = Ok tt ->
  all_accept (validators log2r props).
Proof.
  rewrite validateProps_first_failure. apply first_failure_all_accept.
Qed.

(** X11. The daily backup start time reaches the resource as its
    timestamp: when the input holds a backup start time, built from any
    numbers, and the constructor succeeds, the tree of the resource created
    holds [HH:MM] for the hour and the minute those numbers are, with
    [0 <= h <= 24] and [0 <= m <= 59]; the object of the input is left as
    it was. *)
Theorem constructor_submits_backup_timestamp
    (render : Q -> string) (times : BackupStartTime.BackupStartTimeProps)
    (start : BackupStartTime.BackupStartTime)
    (log2r : Q -> bool) (env : Env) (scope : Construct) (id : string)
    (props : WindowsFileSystem.WindowsFileSystemProps)
    (w w' : World WindowsFileSystem.CfnFileSystemProps)
    (handle : FileSystemHandle) :
  BackupStartTime.constructor render times = Ok start ->
  WindowsFileSystem.dailyAutomaticBackupStartTime
    (WindowsFileSystem.windowsConfiguration props) = Some start ->
  WindowsFileSystem.constructor log2r env scope id props w = (Ok handle, w') ->
  exists tree policy h m,
    cfnFileSystems w'
    = (cfnFileSystems w ++ [(fileSystemId handle, tree, policy)])%list
    /\ integer_between h h (BackupStartTime.hour times)
    /\ integer_between m m (BackupStartTime.minute times)
    /\ (0 <= h <= 24)%Z /\ (0 <= m <= 59)%Z
    /\ WindowsFileSystem.asm_dailyAutomaticBackupStartTime
         (WindowsFileSystem.cfn_windowsConfiguration tree)
       = Some (two_digits h ++ ":" ++ two_digits m).
Proof.
  intros Hstart Hfield Hc.
  pose proof (constructor_Ok_inv _ _ _ _ _ _ _ _ Hc) as Hv.
  apply backup_start_time_inversion in Hstart.
  destruct Hstart as [h [m [Hh [Hm [Hih [Him [_ [_ Hts]]]]]]]].
  unfold WindowsFileSystem.constructor in Hc. simpl in Hc. rewrite Hv in Hc.
  destruct (securityGroup (WindowsFileSystem.base props)) as [g|];
    simpl in Hc; injection Hc as <- <-; simpl;
    do 2 eexists; exists h, m; (split; [reflexivity|]);
    repeat split; try assumption; try lia;
    simpl; rewrite Hfield; simpl; rewrite Hts; reflexivity.
Qed.

(** A file system backed up daily at 5:00, the hour given as 10/2. *)
Lemma constructor_submits_backup_timestamp_example :
  exists tree policy h m,
    cfnFileSystems
      (snd (WindowsFileSystem.constructor sample_log2 sample_env (js "Stack") "FsxFileSystem"
              (sample_props_with_backup
                 {| BackupStartTime.this_hour := "05";
                    BackupStartTime.this_minute := "00" |})
              (empty_world WindowsFileSystem.CfnFileSystemProps)))
    = ([] ++ [(js "Stack/FsxFileSystem/Resource", tree, policy)])%list
    /\ integer_between h h (Finite (10 # 2))
    /\ integer_between m m (int 0)
    /\ (0 <= h <= 24)%Z /\ (0 <= m <= 59)%Z
    /\ WindowsFileSystem.asm_dailyAutomaticBackupStartTime
         (WindowsFileSystem.cfn_windowsConfiguration tree)
       = Some (two_digits h ++ ":" ++ two_digits m).
Proof.
  apply (constructor_submits_backup_timestamp no_render
           {| BackupStartTime.hour := Finite (10 # 2);
              BackupStartTime.minute := int 0 |}
           {| BackupStartTime.this_hour := "05";
              BackupStartTime.this_minute := "00" |}
           sample_log2 sample_env (js "Stack") "FsxFileSystem"
           (sample_props_with_backup
              {| BackupStartTime.this_hour := "05";
                 BackupStartTime.this_minute := "00" |})
           (empty_world WindowsFileSystem.CfnFileSystemProps)
           (snd (WindowsFileSystem.constructor sample_log2 sample_env (js "Stack")
                   "FsxFileSystem"
                   (sample_props_with_backup
                      {| BackupStartTime.this_hour := "05";
                         BackupStartTime.this_minute := "00" |})
                   (empty_world WindowsFileSystem.CfnFileSystemProps)))
           {| connections :=
                configureConnections
                  {| securityGroupId :=
                       js "Stack/FsxFileSystem/FsxWindowsSecurityGroup" |};
              dnsName := js "Stack/FsxFileSystem/Resource.fsx.eu-central-1.amazonaws.com";
              fileSystemId := js "Stack/FsxFileSystem/Resource" |});
    reflexivity.
Defined.

(** X12. No resource is created from a configuration a validator would
    refuse: when the constructor succeeds, the configuration in the tree of
    the resource it created has a throughput capacity the throughput
    validator lets through - from 8 to 4096, a power of two if it is an
    integer, and if it is a fraction one whose logarithm the runtime rounds
    to an integer -, at most 50 aliases, a preferred subnet when the
    deployment is [MULTI_AZ_1], at most 3 DNS addresses, and every string
    under validation either empty or of the form its validator asks. *)
Theorem constructor_creates_validated_resources
    (log2r : Q -> bool) (env : Env) (scope : Construct) (id : string)
    (props : WindowsFileSystem.WindowsFileSystemProps)
    (w w' : World WindowsFileSystem.CfnFileSystemProps)
    (handle : FileSystemHandle) :
  WindowsFileSystem.constructor log2r env scope id props w = (Ok handle, w') ->
  exists tree policy,
    cfnFileSystems w'
    = (cfnFileSystems w ++ [(fileSystemId handle, tree, policy)])%list
    /\ validated log2r (WindowsFileSystem.cfn_windowsConfiguration tree).
Proof.
  intro Hc.
  pose proof (constructor_Ok_inv _ _ _ _ _ _ _ _ Hc) as Hv.
  pose proof (validateProps_Ok_inv log2r props Hv) as Hall.
  unfold WindowsFileSystem.constructor in Hc. simpl in Hc. rewrite Hv in Hc.
  assert (Hval : validated log2r
                   (WindowsFileSystem.assemble
                      (WindowsFileSystem.windowsConfiguration props))).
  { clear Hc Hv. unfold all_accept, validators in Hall.
    destruct (WindowsFileSystem.windowsConfiguration props) as
      [dt adid al audit days copy daily subnet ad st tc weekly].
    simpl in Hall.
    repeat match goal with
           | H : Forall _ (_ :: _) |- _ => inversion H; clear H; subst
           end.
    unfold validated. simpl.
    repeat split.
    - match goal with
      | H : WindowsFileSystem.validateThroughputCapacity log2r _ = _ |- _ =>
          unfold WindowsFileSystem.validateThroughputCapacity in H;
          fold (throughput_rejected log2r tc) in H;
          destruct (throughput_rejected log2r tc) eqn:E; [discriminate|];
          apply throughput_rejected_false; exact E
      end.
    - intros s ->.
      match goal with
      | H : WindowsFileSystem.validateActiveDirectoryId _ = _ |- _ =>
          rewrite validateActiveDirectoryId_as_validateString in H;
          apply validateString_Ok in H; destruct H as [H | H];
          [left; exact H | right; apply lang_activeDirectoryRegex; exact H]
      end.
    - intros l ->.
      match goal with
      | H : WindowsFileSystem.validateAliases _ = _ |- _ =>
          unfold WindowsFileSystem.validateAliases in H;
          destruct (50 <? List.length l)%nat eqn:E; [discriminate|];
          apply Nat.ltb_ge in E; exact E
      end.
    - intros ->.
      match goal with
      | H : WindowsFileSystem.validatePreferredSubnetId _ _ = _ |- _ =>
          unfold WindowsFileSystem.validatePreferredSubnetId in H;
          destruct subnet as [sn|]; [exists sn; reflexivity | discriminate]
      end.
    - intros l Hl. destruct ad as [ad'|]; [|discriminate].
      match goal with Hs : Some _ = Some _ |- _ => injection Hs as -> end.
      simpl in *. rewrite Hl in *.
      match goal with
      | H : WindowsFileSystem.validateDnsIps _ = _ |- _ =>
          unfold WindowsFileSystem.validateDnsIps in H;
          destruct (3 <? List.length l)%nat eqn:E; [discriminate|];
          apply Nat.ltb_ge in E; exact E
      end.
    - intros s Hs. destruct ad as [ad'|]; [|discriminate].
      match goal with Hq : Some _ = Some _ |- _ => injection Hq as -> end.
      simpl in *. rewrite Hs in *.
      match goal with
      | H : WindowsFileSystem.validateDomainName _ = _ |- _ =>
          unfold WindowsFileSystem.validateDomainName in H;
          apply validateString_Ok in H;
          unfold WindowsFileSystem.domainRegex in H;
          rewrite lang_Rep_no_separator in H; exact H
      end.
    - intros s Hs. destruct ad as [ad'|]; [|discriminate].
      match goal with Hq : Some _ = Some _ |- _ => injection Hq as -> end.
      simpl in *. rewrite Hs in *.
      match goal with
      | H : WindowsFileSystem.validateFileSystemAdministratorsGroup _ = _ |- _ =>
          unfold WindowsFileSystem.validateFileSystemAdministratorsGroup in H;
          apply validateString_Ok in H;
          unfold WindowsFileSystem.fsAdminGroupRegex in H;
          rewrite lang_Rep_no_separator in H; exact H
      end.
    - intros s Hs. destruct ad as [ad'|]; [|discriminate].
      match goal with Hq : Some _ = Some _ |- _ => injection Hq as -> end.
      simpl in *. rewrite Hs in *.
      match goal with
      | H : WindowsFileSystem.validateOrganizationalUnitDistinguishedName _ = _ |- _ =>
          unfold WindowsFileSystem.validateOrganizationalUnitDistinguishedName in H;
          apply validateString_Ok in H;
          unfold WindowsFileSystem.ouNameRegex in H;
          rewrite lang_Rep_no_separator in H; exact H
      end.
    - intros s Hs. destruct ad as [ad'|]; [|discriminate].
      match goal with Hq : Some _ = Some _ |- _ => injection Hq as -> end.
      simpl in *. rewrite Hs in *.
      match goal with
      | H : WindowsFileSystem.validatePassword _ = _ |- _ =>
          unfold WindowsFileSystem.validatePassword in H;
          apply validateString_Ok in H;
          rewrite lang_passwordRegex in H; exact H
      end.
    - intros s Hs. destruct ad as [ad'|]; [|discriminate].
      match goal with Hq : Some _ = Some _ |- _ => injection Hq as -> end.
      simpl in *. rewrite Hs in *.
      match goal with
      | H : WindowsFileSystem.validateUsername _ = _ |- _ =>
          unfold WindowsFileSystem.validateUsername in H;
          apply validateString_Ok in H;
          unfold WindowsFileSystem.usernameRegex in H;
          rewrite lang_Rep_no_separator in H; exact H
      end.
    - intros a s -> Hs. simpl in *. rewrite Hs in *.
      match goal with
      | H : WindowsFileSystem.validateARN _ = _ |- _ =>
          unfold WindowsFileSystem.validateARN in H;
          apply validateString_Ok in H; exact H
      end. }
  destruct (securityGroup (WindowsFileSystem.base props)) as [g|];
    simpl in Hc; injection Hc as <- <-; simpl;
    do 2 eexists; (split; [reflexivity | exact Hval]).
Qed.

(** The sample file system backed up daily. *)
Lemma constructor_creates_validated_resources_example :
  exists tree policy,
    cfnFileSystems
      (snd (WindowsFileSystem.constructor sample_log2 sample_env (js "Stack") "FsxFileSystem"
              (sample_props_with_backup
                 {| BackupStartTime.this_hour := "05";
                    BackupStartTime.this_minute := "00" |})
              (empty_world WindowsFileSystem.CfnFileSystemProps)))
    = ([] ++ [(js "Stack/FsxFileSystem/Resource", tree, policy)])%list
    /\ validated sample_log2 (WindowsFileSystem.cfn_windowsConfiguration tree).
Proof.
  apply (constructor_creates_validated_resources
           sample_log2 sample_env (js "Stack") "FsxFileSystem"
           (sample_props_with_backup
              {| BackupStartTime.this_hour := "05";
                 BackupStartTime.this_minute := "00" |})
           (empty_world WindowsFileSystem.CfnFileSystemProps)
           (snd (WindowsFileSystem.constructor sample_log2 sample_env (js "Stack")
                   "FsxFileSystem"
                   (sample_props_with_backup
                      {| BackupStartTime.this_hour := "05";
                         BackupStartTime.this_minute := "00" |})
                   (empty_world WindowsFileSystem.CfnFileSystemProps)))
           {| connections :=
                configureConnections
                  {| securityGroupId :=
                       js "Stack/FsxFileSystem/FsxWindowsSecurityGroup" |};
              dnsName := js "Stack/FsxFileSystem/Resource.fsx.eu-central-1.amazonaws.com";
              fileSystemId := js "Stack/FsxFileSystem/Resource" |}).
  reflexivity.
Defined.

(** X13. The constructor of [lib/windows-file-system.ts] has two outcomes.
    Either its two validators accept; then it creates one resource, whose
    tree holds the configuration of the input unchanged, a throughput
    capacity the throughput validator lets through (from 8 to 4096, a
    power of two if it is an integer, a fraction only if the runtime
    rounds its logarithm to an integer) and a storage capacity the storage
    validator accepts, and it names the endpoint after the resource.  Or it throws the error of the first validator that fails,
    having allocated, opened and created nothing. *)
Theorem constructor_ts_outcomes
    (log2r : Q -> bool) (env : Env) (scope : Construct) (id : string)
    (props : WindowsFileSystemTs.WindowsFileSystemProps)
    (w : World WindowsFileSystemTs.CfnFileSystemProps) :
  (WindowsFileSystemTs.validateProps log2r props = Ok tt
   /\ exists handle w' tree,
        WindowsFileSystemTs.constructor log2r env scope id props w = (Ok handle, w')
        /\ cfnFileSystems w'
           = (cfnFileSystems w
              ++ [(fileSystemId handle, tree,
                   removalPolicy (WindowsFileSystemTs.base props))])%list
        /\ WindowsFileSystemTs.cfn_windowsConfiguration tree
           = WindowsFileSystemTs.windowsConfiguration props
        /\ throughput_accepted log2r
             (WindowsFileSystemTs.throughputCapacity
                (WindowsFileSystemTs.cfn_windowsConfiguration tree))
        /\ storage_accepted (WindowsFileSystemTs.cfn_storageCapacity tree)
        /\ dnsName handle
           = (fileSystemId handle ++ js ".fsx." ++ region env ++ js "."
              ++ URL_SUFFIX env)%list)
  \/ (exists message w',
        WindowsFileSystemTs.validateProps log2r props = Throw message
        /\ WindowsFileSystemTs.constructor log2r env scope id props w
           = (Throw message, w')
        /\ In (Throw message) (validators_ts log2r props)
        /\ nothing_assembled w w').
Proof.
  unfold WindowsFileSystemTs.constructor, WindowsFileSystemTs.validateProps,
         validators_ts.
  simpl.
  destruct (WindowsFileSystemTs.validateThroughputCapacity log2r
              (WindowsFileSystemTs.throughputCapacity
                 (WindowsFileSystemTs.windowsConfiguration props)))
    as [[]|m1] eqn:Et; simpl.
  - destruct (WindowsFileSystemTs.validateStorageCapacity
                (storageCapacityGiB (WindowsFileSystemTs.base props)))
      as [[]|m2] eqn:Es; simpl.
    + left. split; [reflexivity|].
      assert (Hvt : throughput_accepted log2r
                      (WindowsFileSystemTs.throughputCapacity
                         (WindowsFileSystemTs.windowsConfiguration props))).
      { unfold WindowsFileSystemTs.validateThroughputCapacity in Et.
        match type of Et with
        | (if ?c then _ else _) = _ =>
            change c with (throughput_rejected log2r
                             (WindowsFileSystemTs.throughputCapacity
                                (WindowsFileSystemTs.windowsConfiguration props)))
              in Et
        end.
        apply throughput_rejected_false.
        destruct (throughput_rejected log2r _); [discriminate | reflexivity]. }
      apply validateStorageCapacity_Ok in Es.
      destruct (securityGroup (WindowsFileSystemTs.base props)) as [g|]; simpl;
        do 3 eexists; (split; [reflexivity|]); simpl;
        repeat split; assumption.
    + right. do 2 eexists. repeat split; auto.
  - right. do 2 eexists. repeat split; auto.
Qed.

(** With a runtime that rounds the logarithm of 16.000000000000004 to 4 and
    that of 4095.9999999999995 to 12, both constructors succeed on these
    throughput capacities and hand them to the resource as they are. *)
Example constructors_accept_rounded_logarithms :
  is_ok (fst (WindowsFileSystem.constructor sample_log2 sample_env (js "Stack")
                "FsxFileSystem" (sample_props (Finite after_16) (int 1200))
                (empty_world WindowsFileSystem.CfnFileSystemProps)))
  = true
  /\ is_ok (fst (WindowsFileSystemTs.constructor sample_log2 sample_env (js "Stack")
                   "FsxFileSystem" (sample_props_ts (Finite before_4096) (int 1200))
                   (empty_world WindowsFileSystemTs.CfnFileSystemProps)))
     = true
  /\ map (fun r => WindowsFileSystem.asm_throughputCapacity
                     (WindowsFileSystem.cfn_windowsConfiguration (snd (fst r))))
         (cfnFileSystems
            (snd (WindowsFileSystem.constructor sample_log2 sample_env (js "Stack")
                    "FsxFileSystem" (sample_props (Finite after_16) (int 1200))
                    (empty_world WindowsFileSystem.CfnFileSystemProps))))
     = [Finite after_16].
Proof. repeat split. Qed.
